(** * Marcut: the two embedded-Python launcher stubs

  A shallow embedding of

  - [build-scripts/resources/python_embed_stub.c] (variant A: the launcher
    that fills a [PyConfig] and calls [Py_InitializeFromConfig]), and
  - [tests/scripts/python_executable_stub.c] (variant B: the launcher that
    [dlopen]s the framework and calls [Py_Main]),

  with the C library, the file system, the dynamic loader and the CPython
  runtime as an explicit environment the programs are run against. *)

From Stdlib Require Import Ascii String ZArith Lia.
From stdpp Require Import base strings list gmap.

Local Open Scope string_scope.
Local Open Scope list_scope.

(** ** C strings and the [<string.h>] / [<stdio.h>] calls the stubs use

  A [string] stands for the bytes of a C string before its terminating NUL.
  A [char *] into a string is the string together with an index. *)
Module CString.

(** [strrchr(s, c)]: the position of the last occurrence of [c] in [s],
    [None] standing for the NULL result. *)
Fixpoint strrchr (s : string) (c : ascii) : option nat :=
  match s with
  | EmptyString => None
  | String a s' =>
      match strrchr s' c with
      | Some i => Some (S i)
      | None => if Ascii.eqb a c then Some 0 else None
      end
  end.

(** [snprintf(buf, size, fmt, ...)]: [formatted] is the full expansion of the
    format; at most [size - 1] bytes of it are stored, followed by NUL. *)
Definition snprintf (size : nat) (formatted : string) : string :=
  substring 0 (size - 1) formatted.

(** [strncpy(dst, src, n)]: at most [n] bytes of [src] are copied. *)
Definition strncpy (n : nat) (src : string) : string :=
  substring 0 n src.

(** [*p = '\0'] for [p = s + i]: the string now ends at index [i]. *)
Definition cut_at (s : string) (i : nat) : string := substring 0 i s.

(** [p + 1] read as a string, for [p = s + i]. *)
Definition after (s : string) (i : nat) : string :=
  substring (S i) (String.length s - S i) s.

End CString.

(** ** The Darwin C library calls of variant A

  [python_embed_stub.c] includes [<mach-o/dyld.h>], so it builds on Darwin
  only; the constants and [dirname] below are those of Darwin's
  [<sys/syslimits.h>], [<sys/param.h>] and [<libgen.h>]. *)
Module Darwin.

(** [PATH_MAX] of [<sys/syslimits.h>]: the size of every path buffer of
    variant A. *)
Definition PATH_MAX : nat := 1024.

(** [MAXPATHLEN] of [<sys/param.h>], which is [PATH_MAX]. *)
Definition MAXPATHLEN : nat := PATH_MAX.

Definition slash : ascii := "/"%char.

Definition is_slash (c : ascii) : bool := Ascii.eqb c slash.

(** [while (endp > path && f( *endp )) endp--], on the reversed string: the
    head of the list is [*endp], and [endp > path] says that more than one
    character is left. *)
Fixpoint retreat (f : ascii -> bool) (rev_path : list ascii) : list ascii :=
  match rev_path with
  | c :: (_ :: _) as rest => if f c then retreat f rest else rev_path
  | _ => rev_path
  end.

(** [dirname(3)]: NULL or an empty path give ["."]; trailing slashes and
    the last component are dropped; a path without a directory part gives
    ["/"] or ["."]; a result of [MAXPATHLEN] bytes or more is the NULL
    (ENAMETOOLONG) result. *)
Definition dirname (path : option string) : option string :=
  match path with
  | None => Some "."
  | Some "" => Some "."
  | Some p =>
      let endp := retreat is_slash (rev (list_ascii_of_string p)) in
      let endp := retreat (fun c => negb (is_slash c)) endp in
      match endp with
      | [] => Some "."
      | [c] => if is_slash c then Some "/" else Some "."
      | _ :: before =>
          let dir := string_of_list_ascii (rev (retreat is_slash before)) in
          if (MAXPATHLEN <=? String.length dir)%nat then None else Some dir
      end
  end.

End Darwin.

(** ** The CPython initialization API, as far as the launcher uses it *)
Module CPython.

(** [PyStatus]: success, an error with its message, or a request to exit
    with a code. *)
Inductive PyStatus : Type :=
| PyStatus_Ok
| PyStatus_Error (err_msg : string)
| PyStatus_Exit (exitcode : Z).

(** [PyStatus_Exception(status)]: the status is an error or an exit. *)
Definition PyStatus_Exception (status : PyStatus) : bool :=
  match status with
  | PyStatus_Ok => false
  | _ => true
  end.

(** The members of [PyConfig] the launcher reads or writes. String members
    are NULL ([None]) until set. *)
Record PyConfig : Type := mkPyConfig {
  isolated : Z;
  use_environment : Z;
  user_site_directory : Z;
  write_bytecode : Z;
  configure_c_stdio : Z;
  buffered_stdio : Z;
  program_name : option string;
  home : option string;
  pythonpath_env : option string;
  argv : list string
}.

(** The [wchar_t **] members that [PyConfig_SetBytesString] is pointed at. *)
Inductive StringMember : Type :=
| Member_program_name
| Member_home
| Member_pythonpath_env.

(** [PyConfig_InitPythonConfig]: the defaults of the Python configuration. *)
Definition PyConfig_InitPythonConfig : PyConfig :=
  {| isolated := 0; use_environment := 1; user_site_directory := 1;
     write_bytecode := 1; configure_c_stdio := 1; buffered_stdio := 1;
     program_name := None; home := None; pythonpath_env := None;
     argv := [] |}.

Definition set_isolated (v : Z) (c : PyConfig) : PyConfig :=
  mkPyConfig v (use_environment c) (user_site_directory c) (write_bytecode c)
    (configure_c_stdio c) (buffered_stdio c) (program_name c) (home c)
    (pythonpath_env c) (argv c).

Definition set_use_environment (v : Z) (c : PyConfig) : PyConfig :=
  mkPyConfig (isolated c) v (user_site_directory c) (write_bytecode c)
    (configure_c_stdio c) (buffered_stdio c) (program_name c) (home c)
    (pythonpath_env c) (argv c).

Definition set_user_site_directory (v : Z) (c : PyConfig) : PyConfig :=
  mkPyConfig (isolated c) (use_environment c) v (write_bytecode c)
    (configure_c_stdio c) (buffered_stdio c) (program_name c) (home c)
    (pythonpath_env c) (argv c).

Definition set_write_bytecode (v : Z) (c : PyConfig) : PyConfig :=
  mkPyConfig (isolated c) (use_environment c) (user_site_directory c) v
    (configure_c_stdio c) (buffered_stdio c) (program_name c) (home c)
    (pythonpath_env c) (argv c).

Definition set_configure_c_stdio (v : Z) (c : PyConfig) : PyConfig :=
  mkPyConfig (isolated c) (use_environment c) (user_site_directory c)
    (write_bytecode c) v (buffered_stdio c) (program_name c) (home c)
    (pythonpath_env c) (argv c).

Definition set_buffered_stdio (v : Z) (c : PyConfig) : PyConfig :=
  mkPyConfig (isolated c) (use_environment c) (user_site_directory c)
    (write_bytecode c) (configure_c_stdio c) v (program_name c) (home c)
    (pythonpath_env c) (argv c).

(** What a successful [PyConfig_SetBytesString(config, &config->m, str)]
    stores. *)
Definition set_string_member (m : StringMember) (str : string)
    (c : PyConfig) : PyConfig :=
  match m with
  | Member_program_name =>
      mkPyConfig (isolated c) (use_environment c) (user_site_directory c)
        (write_bytecode c) (configure_c_stdio c) (buffered_stdio c)
        (Some str) (home c) (pythonpath_env c) (argv c)
  | Member_home =>
      mkPyConfig (isolated c) (use_environment c) (user_site_directory c)
        (write_bytecode c) (configure_c_stdio c) (buffered_stdio c)
        (program_name c) (Some str) (pythonpath_env c) (argv c)
  | Member_pythonpath_env =>
      mkPyConfig (isolated c) (use_environment c) (user_site_directory c)
        (write_bytecode c) (configure_c_stdio c) (buffered_stdio c)
        (program_name c) (home c) (Some str) (argv c)
  end.

(** What a successful [PyConfig_SetBytesArgv(config, argc, argv)] stores:
    the first [argc] entries of [argv]. *)
Definition set_argv (argc : Z) (args : list string) (c : PyConfig) : PyConfig :=
  mkPyConfig (isolated c) (use_environment c) (user_site_directory c)
    (write_bytecode c) (configure_c_stdio c) (buffered_stdio c)
    (program_name c) (home c) (pythonpath_env c)
    (take (Z.to_nat argc) args).

(** How a call of [Py_RunMain] ends: it returns the exit code to its caller,
    or the runtime ends the process inside the call with an exit code, as it
    does when the program it runs raises [SystemExit]. *)
Inductive RunMain_result : Type :=
| RunMain_returns (exit_code : Z)
| RunMain_exits (exit_code : Z).

End CPython.

(** ** Variant A: [build-scripts/resources/python_embed_stub.c] *)
Module EmbedStub.
Import CString Darwin CPython.

(** What the process does that can be seen from outside it, in order. *)
Inductive Event : Type :=
| Stderr (text : string)
| Call_PyConfig_InitPythonConfig
| Call_PyConfig_SetBytesString (member : StringMember) (str : string)
| Call_PyConfig_SetBytesArgv (argc : Z) (args : list string)
| Call_Py_InitializeFromConfig (config : PyConfig)
| Call_PyConfig_Clear
| Call_Py_ExitStatusException (status : PyStatus)
| Call_Py_RunMain.

(** A computation either goes on with a value, or the process has been
    terminated inside [Py_ExitStatusException], which does not return, or it
    has been ended by the runtime inside [Py_RunMain]. *)
Inductive Outcome (A : Type) : Type :=
| Continue (a : A)
| Terminated (status : PyStatus)
| Exited (exit_code : Z).
Arguments Continue {A} a.
Arguments Terminated {A} status.
Arguments Exited {A} exit_code.

Definition Proc (A : Type) : Type := (list Event * Outcome A)%type.

Definition ret {A} (a : A) : Proc A := ([], Continue a).

Definition bind {A B} (m : Proc A) (k : A -> Proc B) : Proc B :=
  match m with
  | (t, Continue a) => let '(t', r) := k a in (t ++ t', r)
  | (t, Terminated status) => (t, Terminated status)
  | (t, Exited exit_code) => (t, Exited exit_code)
  end.

Definition emit (e : Event) : Proc unit := ([e], Continue tt).

Declare Scope proc_scope.
Delimit Scope proc_scope with proc.
Notation "'let*' x ':=' m 'in' k" := (bind m (fun x => k))
  (at level 10, x pattern, m at level 99, k at level 200) : proc_scope.
Notation "m ;; k" := (bind m (fun _ => k))
  (at level 100, right associativity) : proc_scope.
Local Open Scope proc_scope.

Definition trace {A} (p : Proc A) : list Event := fst p.
Definition outcome {A} (p : Proc A) : Outcome A := snd p.

(** The machine and the runtime the launcher runs against. *)
Record World : Type := {
  (** the path of the main executable, as dyld knows it *)
  image_path : string;
  (** [realpath(3)]: the resolved path, or NULL *)
  realpath : string -> option string;
  (** [access(path, R_OK) == 0] *)
  access_R_OK : string -> bool;
  (** the status each runtime call answers with *)
  status_SetBytesString : StringMember -> string -> PyStatus;
  status_SetBytesArgv : Z -> list string -> PyStatus;
  status_InitializeFromConfig : PyConfig -> PyStatus;
  (** how [Py_RunMain] ends in a runtime initialized from a configuration *)
  result_RunMain : PyConfig -> RunMain_result
}.

(** The line feed of the C source's ["\n"]. *)
Definition LF : string := String "010"%char "".

(** [_NSGetExecutablePath(buf, &bufsize)]: the path is copied when it fits
    the buffer with its terminator ([Some], result 0), and not otherwise
    ([None], result -1). *)
Definition NSGetExecutablePath (w : World) (bufsize : nat) : option string :=
  if (String.length (image_path w) <? bufsize)%nat
  then Some (image_path w) else None.

Definition fprintf_stderr (text : string) : Proc unit := emit (Stderr text).

Definition PyConfig_SetBytesString (w : World) (config : PyConfig)
    (member : StringMember) (str : string) : Proc (PyStatus * PyConfig) :=
  emit (Call_PyConfig_SetBytesString member str) ;;
  let status := status_SetBytesString w member str in
  ret (status,
       if PyStatus_Exception status then config
       else set_string_member member str config).

Definition PyConfig_SetBytesArgv (w : World) (config : PyConfig)
    (argc : Z) (args : list string) : Proc (PyStatus * PyConfig) :=
  emit (Call_PyConfig_SetBytesArgv argc args) ;;
  let status := status_SetBytesArgv w argc args in
  ret (status,
       if PyStatus_Exception status then config
       else set_argv argc args config).

Definition Py_InitializeFromConfig (w : World) (config : PyConfig)
    : Proc PyStatus :=
  emit (Call_Py_InitializeFromConfig config) ;;
  ret (status_InitializeFromConfig w config).

Definition PyConfig_Clear : Proc unit := emit Call_PyConfig_Clear.

Definition Py_ExitStatusException {A} (status : PyStatus) : Proc A :=
  ([Call_Py_ExitStatusException status], Terminated status).

Definition Py_RunMain (w : World) (config : PyConfig) : Proc Z :=
  emit Call_Py_RunMain ;;
  match result_RunMain w config with
  | RunMain_returns exit_code => ret exit_code
  | RunMain_exits exit_code => ([], Exited exit_code)
  end.

(** [handle_status(status, config)]; [config] is a pointer, NULL being
    [None]. *)
Definition handle_status (status : PyStatus) (config : option PyConfig)
    : Proc unit :=
  if PyStatus_Exception status then
    (match config with
     | Some _ => PyConfig_Clear
     | None => ret tt
     end) ;;
    Py_ExitStatusException status
  else ret tt.

(** *** The buffers [main] fills with [snprintf] *)

Definition python_home_link (contents_dir : string) : string :=
  snprintf PATH_MAX
    (contents_dir +:+ "/Frameworks/Python.framework/Versions/Current").

(** [strrchr(python_home, '/')], and the component after it unless it is
    missing or empty. *)
Definition python_version (python_home : string) : string :=
  match strrchr python_home "/" with
  | Some version_component =>
      if (S version_component =? String.length python_home)%nat then "3.10"
      else after python_home version_component
  | None => "3.10"
  end.

Definition program_name (python_home : string) : string :=
  snprintf PATH_MAX (python_home +:+ "/bin/python3").

Definition python_site_path (contents_dir : string) : string :=
  snprintf PATH_MAX (contents_dir +:+ "/Resources/python_site").

Definition python_path (contents_dir python_home python_version : string)
    : string :=
  snprintf PATH_MAX
    (contents_dir +:+ "/Resources/python_site:" +:+
     python_home +:+ "/lib/python" +:+ python_version +:+ ":" +:+
     python_home +:+ "/lib/python" +:+ python_version +:+ "/lib-dynload").

(** *** Lines 69 to 99: the configuration, the initialization and the run *)
Definition configure_and_run (w : World) (args : list string)
    (contents_dir python_home : string) : Proc Z :=
  emit Call_PyConfig_InitPythonConfig ;;
  let config := PyConfig_InitPythonConfig in
  let config := set_use_environment 0 config in
  let config := set_user_site_directory 0 config in
  let config := set_write_bytecode 0 config in
  let* (status, config) :=
     PyConfig_SetBytesString w config Member_program_name
       (program_name python_home) in
  handle_status status (Some config) ;;
  let* (status, config) :=
     PyConfig_SetBytesString w config Member_home python_home in
  handle_status status (Some config) ;;
  let* (status, config) :=
     PyConfig_SetBytesString w config Member_pythonpath_env
       (python_path contents_dir python_home (python_version python_home)) in
  handle_status status (Some config) ;;
  let config := set_isolated 1 config in
  let config := set_use_environment 0 config in
  let config := set_configure_c_stdio 0 config in
  let config := set_buffered_stdio 0 config in
  let* (status, config) :=
     PyConfig_SetBytesArgv w config (Z.of_nat (length args)) args in
  handle_status status (Some config) ;;
  let* status := Py_InitializeFromConfig w config in
  PyConfig_Clear ;;
  handle_status status None ;;
  let* exit_code := Py_RunMain w config in
  ret exit_code.

(** *** [main(argc, argv)], with [argc = length args]

    [Continue code] is [main] returning [code], the exit code of the
    process.

    After line 39 [app_dir] is only compared with NULL, so it does not matter
    here that [dirname] may answer both calls from one buffer. *)
Definition main (w : World) (args : list string) : Proc Z :=
  match NSGetExecutablePath w PATH_MAX with
  | None =>
      fprintf_stderr ("python3_embed: Failed to get executable path" +:+ LF) ;;
      ret 1%Z
  | Some executable_path =>
      let app_dir := dirname (Some executable_path) in
      let contents_dir := dirname app_dir in
      match app_dir, contents_dir with
      | Some _, Some contents_dir =>
          match realpath w (python_home_link contents_dir) with
          | None =>
              fprintf_stderr
                ("python3_embed: Unable to resolve Python home at " +:+
                 python_home_link contents_dir +:+ LF) ;;
              ret 1%Z
          | Some python_home =>
              if negb (access_R_OK w (python_site_path contents_dir)) then
                fprintf_stderr
                  ("python3_embed: python_site not found at " +:+
                   python_site_path contents_dir +:+ LF) ;;
                ret 1%Z
              else
                configure_and_run w args contents_dir python_home
          end
      | _, _ =>
          fprintf_stderr
            ("python3_embed: Failed to resolve app directory structure" +:+ LF) ;;
          ret 1%Z
      end
  end.

End EmbedStub.


(** ** Variant B: [tests/scripts/python_executable_stub.c] *)
Module ExecutableStub.
Import CString.

(** A non-NULL [void *] returned by [dlopen]. *)
Definition Handle : Type := positive.

(** The function [dlsym] resolves ["Py_Main"] to: called with [argc] and
    [argv], it reads the process environment and returns an [int]. *)
Definition EntryPoint : Type := gmap string string -> Z -> list string -> Z.

(** The machine the launcher runs on. *)
Record World : Type := {
  (** [realpath(path, NULL)]: the resolved path, or NULL *)
  realpath : string -> option string;
  (** [dlopen(path, RTLD_LAZY)]: a handle, or NULL *)
  dlopen_result : string -> option Handle;
  (** [dlsym(handle, symbol)]: the function, or NULL *)
  dlsym_result : Handle -> string -> option EntryPoint;
  (** the text [dlerror] gives after a failed [dlopen] of a path *)
  dlopen_error : string -> string;
  (** the text [dlerror] gives after a failed [dlsym] *)
  dlsym_error : Handle -> string -> string
}.

Inductive Event : Type :=
| Stderr (text : string)
| Call_setenv (name value : string) (overwrite : Z)
| Call_dlopen (path : string)
| Call_dlsym (handle : Handle) (symbol : string)
| Call_dlclose (handle : Handle)
| Call_Py_Main (argc : Z) (args : list string).

(** The state of the process: its environment, the handles it holds, the
    pending [dlerror] text, and what it has done so far. *)
Record State : Type := mkState {
  environ : gmap string string;
  loaded : list Handle;
  dl_error : option string;
  events : list Event
}.

Definition initial (env : gmap string string) : State :=
  {| environ := env; loaded := []; dl_error := None; events := [] |}.

Definition Run (A : Type) : Type := State -> A * State.

Definition ret {A} (a : A) : Run A := fun s => (a, s).

Definition bind {A B} (m : Run A) (k : A -> Run B) : Run B :=
  fun s => let '(a, s') := m s in k a s'.

Declare Scope run_scope.
Delimit Scope run_scope with run.
Notation "'let*' x ':=' m 'in' k" := (bind m (fun x => k))
  (at level 10, x pattern, m at level 99, k at level 200) : run_scope.
Notation "m ;; k" := (bind m (fun _ => k))
  (at level 100, right associativity) : run_scope.
Local Open Scope run_scope.

Definition emit (e : Event) : Run unit :=
  fun s => (tt, mkState (environ s) (loaded s) (dl_error s) (events s ++ [e])).

Definition LF : string := String "010"%char "".

Definition fprintf_stderr (text : string) : Run unit := emit (Stderr text).

(** [setenv(name, value, overwrite)] *)
Definition setenv (name value : string) (overwrite : Z) : Run unit :=
  emit (Call_setenv name value overwrite) ;;
  fun s =>
    let env :=
      match environ s !! name with
      | Some _ => if (overwrite =? 0)%Z then environ s else <[name := value]> (environ s)
      | None => <[name := value]> (environ s)
      end in
    (tt, mkState env (loaded s) (dl_error s) (events s)).

(** [dlopen(path, RTLD_LAZY)] *)
Definition dlopen (w : World) (path : string) : Run (option Handle) :=
  emit (Call_dlopen path) ;;
  fun s =>
    match dlopen_result w path with
    | Some handle =>
        (Some handle, mkState (environ s) (handle :: loaded s) (dl_error s) (events s))
    | None =>
        (None, mkState (environ s) (loaded s) (Some (dlopen_error w path)) (events s))
    end.

(** [dlsym(handle, symbol)] *)
Definition dlsym (w : World) (handle : Handle) (symbol : string)
    : Run (option EntryPoint) :=
  emit (Call_dlsym handle symbol) ;;
  fun s =>
    match dlsym_result w handle symbol with
    | Some f => (Some f, s)
    | None =>
        (None, mkState (environ s) (loaded s) (Some (dlsym_error w handle symbol))
                 (events s))
    end.

(** [dlerror()]: the pending text, which the call clears; NULL prints as
    ["(null)"]. *)
Definition dlerror : Run string :=
  fun s =>
    (match dl_error s with Some text => text | None => "(null)" end,
     mkState (environ s) (loaded s) None (events s)).

Fixpoint remove_first (handle : Handle) (l : list Handle) : list Handle :=
  match l with
  | [] => []
  | h :: l' => if Pos.eqb h handle then l' else h :: remove_first handle l'
  end.

(** [dlclose(handle)] *)
Definition dlclose (handle : Handle) : Run unit :=
  emit (Call_dlclose handle) ;;
  fun s =>
    (tt, mkState (environ s) (remove_first handle (loaded s)) (dl_error s) (events s)).

(** The call through the pointer [dlsym] gave. *)
Definition call_Py_Main (f : EntryPoint) (argc : Z) (args : list string) : Run Z :=
  emit (Call_Py_Main argc args) ;;
  fun s => (f (environ s) argc args, s).

(** The development path of line 23. *)
Definition development_framework_path : string :=
  "/Users/mhm/Documents/Hobby/Marcut-2/build/MarcutApp.app/Contents/Frameworks/Python.framework/Versions/3.11/Python".

(** Lines 17 to 24: [framework_path], a buffer of 1024 bytes. *)
Definition framework_path (exe_path : string) : string :=
  match strrchr exe_path "/" with
  | Some last_slash =>
      snprintf 1024
        (cut_at exe_path last_slash +:+
         "/../Frameworks/Python.framework/Versions/3.11/Python")
  | None => development_framework_path
  end.

(** Lines 29 to 34: [python_home], a buffer of 1024 bytes. *)
Definition python_home (framework_path : string) : string :=
  let python_home := strncpy 1024 framework_path in
  match strrchr python_home "/" with
  | Some last_slash_py => cut_at python_home last_slash_py
  | None => python_home
  end.

(** [main(argc, argv)], with [argc = length args]; [argv[0]] is NULL when the
    vector is empty, and [realpath] of NULL is NULL. The [free] of line 26
    has no effect the properties below speak of and is left out. *)
Definition main (w : World) (args : list string) : Run Z :=
  match head args ≫= realpath w with
  | None =>
      fprintf_stderr ("Could not determine executable path" +:+ LF) ;;
      ret 1%Z
  | Some exe_path =>
      let framework_path := framework_path exe_path in
      let python_home := python_home framework_path in
      setenv "PYTHONHOME" python_home 1 ;;
      let* handle := dlopen w framework_path in
      match handle with
      | None =>
          let* text := dlerror in
          fprintf_stderr ("Failed to load Python framework: " +:+ text +:+ LF) ;;
          ret 1%Z
      | Some handle =>
          let* Py_Main := dlsym w handle "Py_Main" in
          match Py_Main with
          | None =>
              let* text := dlerror in
              fprintf_stderr ("Failed to find Py_Main: " +:+ text +:+ LF) ;;
              dlclose handle ;;
              ret 1%Z
          | Some Py_Main =>
              let* result := call_Py_Main Py_Main (Z.of_nat (length args)) args in
              dlclose handle ;;
              ret result
          end
      end
  end.

End ExecutableStub.

(** ** Notions the properties are stated with *)
Module Reference.
Import CString CPython.

(** The three entries of the module search path, in the order of the
    specification: the bundled site directory, the standard library of the
    runtime, its directory of dynamic extensions. *)
Definition search_path_list (contents_dir runtime_home version : string)
    : list string :=
  [ contents_dir +:+ "/Resources/python_site";
    runtime_home +:+ "/lib/python" +:+ version;
    runtime_home +:+ "/lib/python" +:+ version +:+ "/lib-dynload" ].

(** A list of directories joined with the path separator. *)
Definition join_paths (dirs : list string) : string := String.concat ":" dirs.

(** The segments of a path, which are separated by ['/']. *)
Fixpoint path_segments (path : string) : list string :=
  match path with
  | EmptyString => [""]
  | String c rest =>
      if Ascii.eqb c "/" then "" :: path_segments rest
      else match path_segments rest with
           | segment :: more => String c segment :: more
           | [] => [String c ""]
           end
  end.

(** The final segment of a path. *)
Definition final_path_segment (path : string) : string :=
  List.last (path_segments path) "".

(** An absolute path, which is what [realpath] resolves to. *)
Definition is_absolute (path : string) : Prop :=
  exists rest, path = String "/" rest.

(** A directory path that is not empty and does not end with a separator. *)
Definition directory_path (dir : string) : Prop :=
  exists front c, dir = front +:+ String c "" /\ c <> "/"%char.

(** One component of a path: not empty, and without a separator. *)
Definition path_component (name : string) : Prop :=
  name <> "" /\ strrchr name "/" = None.

(** The configuration after lines 69 to 92 of variant A, when every call
    succeeded. *)
Definition launch_config (args : list string)
    (contents_dir python_home : string) : PyConfig :=
  {| isolated := 1;
     use_environment := 0;
     user_site_directory := 0;
     write_bytecode := 0;
     configure_c_stdio := 0;
     buffered_stdio := 0;
     program_name := Some (EmbedStub.program_name python_home);
     home := Some python_home;
     pythonpath_env :=
       Some (EmbedStub.python_path contents_dir python_home
               (EmbedStub.python_version python_home));
     argv := take (Z.to_nat (Z.of_nat (length args))) args |}.

(** What variant A calls before [Py_InitializeFromConfig], in the order of
    lines 69 to 91. *)
Definition setup_calls (args : list string) (contents_dir python_home : string)
    : list EmbedStub.Event :=
  [ EmbedStub.Call_PyConfig_InitPythonConfig;
    EmbedStub.Call_PyConfig_SetBytesString Member_program_name
      (EmbedStub.program_name python_home);
    EmbedStub.Call_PyConfig_SetBytesString Member_home python_home;
    EmbedStub.Call_PyConfig_SetBytesString Member_pythonpath_env
      (EmbedStub.python_path contents_dir python_home
         (EmbedStub.python_version python_home));
    EmbedStub.Call_PyConfig_SetBytesArgv (Z.of_nat (length args)) args ].

(** The status the runtime answered a call of variant A with. *)
Definition reported_status (w : EmbedStub.World) (e : EmbedStub.Event)
    : option PyStatus :=
  match e with
  | EmbedStub.Call_PyConfig_SetBytesString member str =>
      Some (EmbedStub.status_SetBytesString w member str)
  | EmbedStub.Call_PyConfig_SetBytesArgv argc args =>
      Some (EmbedStub.status_SetBytesArgv w argc args)
  | EmbedStub.Call_Py_InitializeFromConfig config =>
      Some (EmbedStub.status_InitializeFromConfig w config)
  | _ => None
  end.

(** The first 26 bytes of a line written to standard error by variant A,
    which tell its messages apart. *)
Definition stderr_start (e : EmbedStub.Event) : string :=
  match e with
  | EmbedStub.Stderr text => substring 0 26 text
  | _ => ""
  end.

(** How often a run of variant A called [PyConfig_Clear]. *)
Fixpoint count_clear (t : list EmbedStub.Event) : nat :=
  match t with
  | [] => 0
  | EmbedStub.Call_PyConfig_Clear :: t' => S (count_clear t')
  | _ :: t' => count_clear t'
  end.

(** The fixed offset from the directory of the executable of variant B to
    the library of the runtime. *)
Definition library_offset : string :=
  "/../Frameworks/Python.framework/Versions/3.11/Python".

(** How often a run of variant B called [dlopen] and [dlclose]. *)
Fixpoint count_dlopen (t : list ExecutableStub.Event) : nat :=
  match t with
  | [] => 0
  | ExecutableStub.Call_dlopen _ :: t' => S (count_dlopen t')
  | _ :: t' => count_dlopen t'
  end.

Fixpoint count_dlclose (t : list ExecutableStub.Event) : nat :=
  match t with
  | [] => 0
  | ExecutableStub.Call_dlclose _ :: t' => S (count_dlclose t')
  | _ :: t' => count_dlclose t'
  end.

End Reference.

(** ** Bundles and machines to run the launchers on *)
Module Scenario.
Import CString CPython.

(** [n] nested directories of one name. *)
Fixpoint deep (n : nat) (name : string) : string :=
  match n with
  | 0 => ""
  | S n' => "/" +:+ name +:+ deep n' name
  end.

(** A directory name of 237 bytes, below the 255 a name may have. *)
Definition long_name : string := string_of_list_ascii (replicate 237 "a"%char).

Definition applications_contents : string := "/Applications/MarcutApp.app/Contents".

(** 499 and 975 bytes. *)
Definition nested_contents : string := deep 2 long_name +:+ "/MarcutApp.app/Contents".
Definition deeply_nested_contents : string := deep 4 long_name +:+ "/MarcutApp.app/Contents".

(** 1213 bytes: the executable path of this bundle does not fit [PATH_MAX]. *)
Definition overlong_contents : string := deep 5 long_name +:+ "/MarcutApp.app/Contents".

Definition framework_version (contents_dir version : string) : string :=
  contents_dir +:+ "/Frameworks/Python.framework/Versions/" +:+ version.

(** A bundle at [contents_dir] whose [Versions/Current] link points at
    [Versions/<version>]; [site] says whether [Resources/python_site] is
    there, and the runtime answers initialization with [init]. *)
Definition bundle (contents_dir version : string) (site : bool)
    (init : PyStatus) : EmbedStub.World :=
  {| EmbedStub.image_path := contents_dir +:+ "/MacOS/python3_embed";
     EmbedStub.realpath := fun path =>
       if String.eqb path (framework_version contents_dir "Current")
       then Some (framework_version contents_dir version) else None;
     EmbedStub.access_R_OK := fun path =>
       site && String.eqb path (contents_dir +:+ "/Resources/python_site");
     EmbedStub.status_SetBytesString := fun _ _ => PyStatus_Ok;
     EmbedStub.status_SetBytesArgv := fun _ _ => PyStatus_Ok;
     EmbedStub.status_InitializeFromConfig := fun _ => init;
     EmbedStub.result_RunMain := fun _ => RunMain_returns 0 |}.

(** The bundle in [/Applications] with a runtime that fails to initialize. *)
Definition failing_runtime : EmbedStub.World :=
  bundle applications_contents "3.11" true
    (PyStatus_Error "failed to get the Python codec of the filesystem encoding").

Definition applications_home : string :=
  framework_version applications_contents "3.11".

(** What [main] does in that bundle before [Py_InitializeFromConfig]. *)
Definition configuration_calls (args : list string) : list EmbedStub.Event :=
  [ EmbedStub.Call_PyConfig_InitPythonConfig;
    EmbedStub.Call_PyConfig_SetBytesString Member_program_name
      (EmbedStub.program_name applications_home);
    EmbedStub.Call_PyConfig_SetBytesString Member_home applications_home;
    EmbedStub.Call_PyConfig_SetBytesString Member_pythonpath_env
      (EmbedStub.python_path applications_contents applications_home
         (EmbedStub.python_version applications_home));
    EmbedStub.Call_PyConfig_SetBytesArgv (Z.of_nat (length args)) args ].

(** The bundle in [/Applications] with a program that raises [SystemExit]
    with code 2, so that the runtime ends the process inside [Py_RunMain]. *)
Definition exiting_program : EmbedStub.World :=
  {| EmbedStub.image_path := applications_contents +:+ "/MacOS/python3_embed";
     EmbedStub.realpath := fun path =>
       if String.eqb path (framework_version applications_contents "Current")
       then Some applications_home else None;
     EmbedStub.access_R_OK := fun path =>
       String.eqb path (applications_contents +:+ "/Resources/python_site");
     EmbedStub.status_SetBytesString := fun _ _ => PyStatus_Ok;
     EmbedStub.status_SetBytesArgv := fun _ _ => PyStatus_Ok;
     EmbedStub.status_InitializeFromConfig := fun _ => PyStatus_Ok;
     EmbedStub.result_RunMain := fun _ => RunMain_exits 2 |}.

(** 986 bytes. *)
Definition contents_986 : string :=
  deep 4 long_name +:+ "/Marcut-2.0/MarcutApp.app/Contents".

(** A bundle 986 bytes deep whose framework has its [Versions] directory but
    no [Current] link in it; [Resources/python_site] is there. *)
Definition deep_bundle_without_current : EmbedStub.World :=
  {| EmbedStub.image_path := contents_986 +:+ "/MacOS/python3_embed";
     EmbedStub.realpath := fun path =>
       if String.eqb path
            (contents_986 +:+ "/Frameworks/Python.framework/Versions")
       then Some path else None;
     EmbedStub.access_R_OK := fun path =>
       String.eqb path (contents_986 +:+ "/Resources/python_site");
     EmbedStub.status_SetBytesString := fun _ _ => PyStatus_Ok;
     EmbedStub.status_SetBytesArgv := fun _ _ => PyStatus_Ok;
     EmbedStub.status_InitializeFromConfig := fun _ => PyStatus_Ok;
     EmbedStub.result_RunMain := fun _ => RunMain_returns 0 |}.

(** The same bundle with the [Current] link missing. *)
Definition bundle_without_current (contents_dir : string) : EmbedStub.World :=
  {| EmbedStub.image_path := contents_dir +:+ "/MacOS/python3_embed";
     EmbedStub.realpath := fun _ => None;
     EmbedStub.access_R_OK := fun _ => true;
     EmbedStub.status_SetBytesString := fun _ _ => PyStatus_Ok;
     EmbedStub.status_SetBytesArgv := fun _ _ => PyStatus_Ok;
     EmbedStub.status_InitializeFromConfig := fun _ => PyStatus_Ok;
     EmbedStub.result_RunMain := fun _ => RunMain_returns 0 |}.

(** A [Py_Main] that answers [3] when [PYTHONHOME] is set and [0]
    otherwise. *)
Definition Py_Main_stub : ExecutableStub.EntryPoint :=
  fun env _ _ => match env !! "PYTHONHOME" with Some _ => 3%Z | None => 0%Z end.

(** A machine for variant B: the files that exist with what they resolve to,
    the library that loads, and whether it exports [Py_Main]. *)
Definition machine (files : list (string * string)) (library : string)
    (exports_Py_Main : bool) : ExecutableStub.World :=
  {| ExecutableStub.realpath := fun path =>
       snd <$> List.find (fun entry => String.eqb (fst entry) path) files;
     ExecutableStub.dlopen_result := fun path =>
       if String.eqb path library then Some 1%positive else None;
     ExecutableStub.dlsym_result := fun _ symbol =>
       if exports_Py_Main && String.eqb symbol "Py_Main"
       then Some Py_Main_stub else None;
     ExecutableStub.dlopen_error := fun path => "dlopen(" +:+ path +:+ "): image not found";
     ExecutableStub.dlsym_error := fun _ symbol => "dlsym: symbol not found: " +:+ symbol |}.

Definition resources_stub : string :=
  "/Applications/MarcutApp.app/Contents/Resources/python_stub".

Definition applications_library : string :=
  "/Applications/MarcutApp.app/Contents/Resources/../Frameworks/Python.framework/Versions/3.11/Python".

(** 997 bytes. *)
Definition deeply_nested_stub : string :=
  deeply_nested_contents +:+ "/Resources/python_stub".

(** The library as variant B means to name it for that stub. *)
Definition deeply_nested_library : string :=
  deeply_nested_contents +:+
  "/Resources/../Frameworks/Python.framework/Versions/3.11/Python".

(** The stub installed in [/Applications], started as [python_stub]. *)
Definition installed (exports_Py_Main : bool) : ExecutableStub.World :=
  machine [("python_stub", resources_stub)] applications_library exports_Py_Main.

(** The stub installed 975 bytes deep. *)
Definition installed_deep : ExecutableStub.World :=
  machine [("python_stub", deeply_nested_stub)] deeply_nested_library true.

(** A machine on which the stub started as [python_stub] is not found. *)
Definition stub_missing : ExecutableStub.World :=
  machine [] applications_library true.

(** A machine whose [realpath] answers with a bare name. *)
Definition bare_name : ExecutableStub.World :=
  machine [("python_stub", "python_stub")]
    ExecutableStub.development_framework_path true.

End Scenario.

(** ** Facts about the C string calls *)
Module CStringFacts.
Import CString.

Lemma append_cons (x : ascii) (a b : string) :
  String x a +:+ b = String x (a +:+ b).
Proof. reflexivity. Qed.

Lemma append_empty_l (b : string) : "" +:+ b = b.
Proof. reflexivity. Qed.

Lemma length_append (a b : string) :
  String.length (a +:+ b) = String.length a + String.length b.
Proof.
  induction a as [|c a IH]; [reflexivity|].
  rewrite append_cons. simpl. now rewrite IH.
Qed.

Lemma append_assoc (a b c : string) : (a +:+ b) +:+ c = a +:+ (b +:+ c).
Proof.
  induction a as [|x a IH]; [reflexivity|].
  rewrite !append_cons. now rewrite IH.
Qed.

Lemma substring_all (s : string) (n : nat) :
  String.length s <= n -> substring 0 n s = s.
Proof.
  revert n; induction s as [|c s IH]; intros [|n] H; simpl in *;
    try reflexivity; try lia.
  rewrite IH by lia. reflexivity.
Qed.

Lemma substring_length_le (s : string) (n : nat) :
  String.length (substring 0 n s) <= n.
Proof.
  revert n; induction s as [|c s IH]; intros [|n]; simpl; try lia.
  specialize (IH n). lia.
Qed.

Lemma substring_is_prefix (s : string) (n : nat) :
  exists rest, s = substring 0 n s +:+ rest.
Proof.
  revert n; induction s as [|c s IH]; intros [|n]; simpl.
  - now exists "".
  - now exists "".
  - now exists (String c s).
  - destruct (IH n) as [r Hr]. exists r. rewrite append_cons. now rewrite <- Hr.
Qed.

Lemma substring_append_l (a b : string) (k : nat) :
  substring 0 (String.length a + k) (a +:+ b) = a +:+ substring 0 k b.
Proof.
  induction a as [|c a IH]; [reflexivity|].
  rewrite append_cons. simpl. now rewrite IH.
Qed.

Lemma snprintf_fits (size : nat) (s : string) :
  String.length s < size -> snprintf size s = s.
Proof. intros H. unfold snprintf. apply substring_all. lia. Qed.

Lemma snprintf_length (size : nat) (s : string) :
  0 < size -> String.length (snprintf size s) < size.
Proof.
  intros H. unfold snprintf.
  pose proof (substring_length_le s (size - 1)). lia.
Qed.

Lemma strrchr_append (a b : string) (c : ascii) :
  strrchr (a +:+ b) c =
    match strrchr b c with
    | Some i => Some (String.length a + i)
    | None => strrchr a c
    end.
Proof.
  induction a as [|x a IH].
  - rewrite append_empty_l. now destruct (strrchr b c).
  - rewrite append_cons. simpl. rewrite IH. now destruct (strrchr b c).
Qed.

Lemma strrchr_lt (s : string) (c : ascii) (i : nat) :
  strrchr s c = Some i -> i < String.length s.
Proof.
  revert i; induction s as [|x s IH]; simpl; intros i H; [discriminate|].
  destruct (strrchr s c) as [j|].
  - injection H as <-. specialize (IH j eq_refl). lia.
  - destruct (Ascii.eqb x c); [injection H as <-; lia | discriminate].
Qed.

Lemma substring_length (s : string) (n m : nat) :
  n + m <= String.length s -> String.length (substring n m s) = m.
Proof.
  revert n m; induction s as [|c s IH]; intros [|n] [|m] H; simpl in *;
    try reflexivity; try lia.
  - rewrite (IH 0 m) by lia. reflexivity.
  - apply IH. lia.
  - apply IH. lia.
Qed.

Lemma after_cons (c : ascii) (s : string) (i : nat) :
  after (String c s) (S i) = after s i.
Proof. reflexivity. Qed.

Lemma after_first (c : ascii) (s : string) : after (String c s) 0 = s.
Proof.
  unfold after. simpl. rewrite Nat.sub_0_r. apply substring_all. lia.
Qed.

Lemma after_length (s : string) (i : nat) :
  i < String.length s -> String.length (after s i) = String.length s - S i.
Proof. intros H. unfold after. apply substring_length. lia. Qed.

Lemma strrchr_absolute (rest : string) :
  exists i, strrchr (String "/" rest) "/" = Some i.
Proof. simpl. destruct (strrchr rest "/"); eauto. Qed.

Lemma substring_after_append (a b : string) (n m : nat) :
  substring (String.length a + n) m (a +:+ b) = substring n m b.
Proof.
  induction a as [|c a IH]; [reflexivity|].
  rewrite append_cons. simpl. exact IH.
Qed.

(** [strrchr] splits a string at the last occurrence of the character. *)
Lemma strrchr_split (s : string) (c : ascii) (i : nat) :
  strrchr s c = Some i ->
  s = cut_at s i +:+ String c (after s i) /\ strrchr (after s i) c = None.
Proof.
  revert i; induction s as [|a s IH]; intros i; [discriminate|].
  simpl. destruct (strrchr s c) as [j|] eqn:Hj.
  - intros [= <-]. destruct (IH j eq_refl) as [Hs Hafter].
    rewrite after_cons. split; [|exact Hafter].
    unfold cut_at in *. simpl. rewrite append_cons. now rewrite <- Hs.
  - destruct (Ascii.eqb_spec a c) as [->|]; [|discriminate].
    intros [= <-]. rewrite after_first. split; [reflexivity | exact Hj].
Qed.

Lemma strrchr_None_In (s : string) (c : ascii) :
  strrchr s c = None <-> ~ In c (list_ascii_of_string s).
Proof.
  induction s as [|a s IH]; simpl; [tauto|].
  destruct (strrchr s c) as [j|].
  - split; [discriminate|]. intros H. exfalso. apply H. right.
    destruct (in_dec ascii_dec c (list_ascii_of_string s)) as [Hin|Hout]; [exact Hin|].
    apply IH in Hout. discriminate Hout.
  - destruct (Ascii.eqb_spec a c) as [->|Hne].
    + split; [discriminate|]. intros H. exfalso. apply H. now left.
    + split; [|reflexivity]. intros _ [Heq|Hin]; [contradiction|].
      now apply IH in Hin.
Qed.

Lemma cut_at_length (s : string) (i : nat) :
  String.length (cut_at s i) <= String.length s.
Proof.
  unfold cut_at. revert i; induction s as [|a s IH]; intros [|i]; simpl; try lia.
  specialize (IH i). lia.
Qed.

End CStringFacts.

(** ** [dirname] on the paths of a bundle *)
Module DarwinFacts.
Import Darwin.

Example dirname_executable :
  dirname (Some "/Applications/MarcutApp.app/Contents/MacOS/python3_embed")
  = Some "/Applications/MarcutApp.app/Contents/MacOS".
Proof. vm_compute. reflexivity. Qed.

Example dirname_twice :
  dirname (dirname (Some "/Applications/MarcutApp.app/Contents/MacOS/python3_embed"))
  = Some "/Applications/MarcutApp.app/Contents".
Proof. vm_compute. reflexivity. Qed.

Example dirname_corner_cases :
  dirname (Some "/usr") = Some "/" /\ dirname (Some "usr") = Some "." /\
  dirname (Some "a//b/") = Some "a" /\ dirname (Some "/") = Some "/" /\
  dirname None = Some ".".
Proof. vm_compute. repeat split. Qed.

Lemma list_ascii_of_string_append (a b : string) :
  list_ascii_of_string (a +:+ b) = list_ascii_of_string a ++ list_ascii_of_string b.
Proof.
  induction a as [|c a IH]; [reflexivity|].
  rewrite CStringFacts.append_cons. simpl. now rewrite IH.
Qed.

Lemma length_string_of_list_ascii (l : list ascii) :
  String.length (string_of_list_ascii l) = length l.
Proof. induction l as [|c l IH]; simpl; [reflexivity | now rewrite IH]. Qed.

Lemma length_list_ascii_of_string (s : string) :
  length (list_ascii_of_string s) = String.length s.
Proof. induction s as [|c s IH]; simpl; [reflexivity | now rewrite IH]. Qed.

Lemma retreat_keep (f : ascii -> bool) (c : ascii) (l : list ascii) :
  f c = false -> retreat f (c :: l) = c :: l.
Proof. intros H. destruct l; simpl; [reflexivity | now rewrite H]. Qed.

Lemma retreat_skip (f : ascii -> bool) (skipped : list ascii) (c : ascii)
    (l : list ascii) :
  Forall (fun x => f x = true) skipped -> f c = false ->
  retreat f (skipped ++ c :: l) = c :: l.
Proof.
  intros Hall Hc. induction Hall as [|x skipped Hx _ IH]; simpl.
  - now apply retreat_keep.
  - destruct (skipped ++ c :: l) eqn:E; [now destruct skipped|].
    now rewrite Hx.
Qed.

Lemma retreat_length (f : ascii -> bool) (l : list ascii) :
  length (retreat f l) <= length l.
Proof.
  induction l as [|c l IH]; simpl; [lia|].
  destruct l as [|d l]; [simpl; lia|].
  destruct (f c); [|simpl; lia]. simpl in *. lia.
Qed.

Lemma retreat_nonempty (f : ascii -> bool) (l : list ascii) :
  l <> [] -> retreat f l <> [].
Proof.
  induction l as [|c l IH]; [congruence|]. intros _. simpl.
  destruct l as [|d l]; [discriminate|].
  destruct (f c); [apply IH|]; discriminate.
Qed.

(** [dirname] of a directory followed by one more component is the
    directory. *)
Lemma dirname_component (dir name : string) :
  Reference.directory_path dir -> Reference.path_component name ->
  String.length dir < MAXPATHLEN ->
  dirname (Some (dir +:+ "/" +:+ name)) = Some dir.
Proof.
  intros (front & c & -> & Hc) [Hname Hslash] Hlen.
  apply CStringFacts.strrchr_None_In in Hslash.
  unfold dirname.
  destruct ((front +:+ String c "") +:+ "/" +:+ name) as [|x rest] eqn:Hp.
  { apply (f_equal String.length) in Hp.
    rewrite !CStringFacts.length_append in Hp. simpl in Hp. lia. }
  rewrite <- Hp. clear x rest Hp.
  rewrite !list_ascii_of_string_append. simpl list_ascii_of_string.
  rewrite !rev_app_distr. simpl rev. rewrite <- !app_assoc. simpl app.
  destruct (rev (list_ascii_of_string name)) as [|n0 ns] eqn:Hrev.
  { apply (f_equal (@length ascii)) in Hrev. rewrite length_rev in Hrev.
    rewrite length_list_ascii_of_string in Hrev.
    destruct name; [congruence | discriminate]. }
  assert (Hall : Forall (fun x => negb (is_slash x) = true) (n0 :: ns)).
  { rewrite <- Hrev. apply List.Forall_forall. intros x Hx.
    apply in_rev in Hx. unfold is_slash, slash.
    destruct (Ascii.eqb_spec x "/") as [->|]; [contradiction | reflexivity]. }
  assert (Hn0 : is_slash n0 = false).
  { apply Forall_inv in Hall. now destruct (is_slash n0). }
  rewrite <- app_comm_cons, (retreat_keep is_slash) by exact Hn0.
  rewrite app_comm_cons.
  rewrite (retreat_skip (fun x => negb (is_slash x)) (n0 :: ns) "/")
    by (exact Hall || reflexivity).
  assert (Hcs : is_slash c = false).
  { unfold is_slash, slash. now destruct (Ascii.eqb_spec c "/"). }
  rewrite (retreat_keep is_slash c) by exact Hcs.
  change (c :: rev (list_ascii_of_string front))
    with (rev [c] ++ rev (list_ascii_of_string front)).
  rewrite <- rev_app_distr, rev_involutive.
  change [c] with (list_ascii_of_string (String c "")).
  rewrite <- list_ascii_of_string_append, string_of_list_ascii_of_string.
  destruct (Nat.leb_spec MAXPATHLEN (String.length (front +:+ String c "")));
    [lia | reflexivity].
Qed.

(** [dirname] of a path that fits a path buffer is never NULL, and fits a
    path buffer again. *)
Lemma dirname_fits (path : string) :
  String.length path < MAXPATHLEN ->
  exists dir, dirname (Some path) = Some dir /\ String.length dir < MAXPATHLEN.
Proof.
  intros Hlen. unfold dirname.
  destruct path as [|x rest] eqn:Hp.
  { exists ".". split; [reflexivity|]. apply Nat.ltb_lt. reflexivity. }
  rewrite <- Hp in *. clear x rest Hp.
  pose proof (retreat_length (fun c => negb (is_slash c))
                (retreat is_slash (rev (list_ascii_of_string path)))) as H1.
  pose proof (retreat_length is_slash (rev (list_ascii_of_string path))) as H2.
  rewrite length_rev, length_list_ascii_of_string in H2.
  destruct (retreat (fun c => negb (is_slash c))
              (retreat is_slash (rev (list_ascii_of_string path))))
    as [|c [|d before]].
  - exists ".". split; [reflexivity|]. apply Nat.ltb_lt. reflexivity.
  - destruct (is_slash c); eexists; (split; [reflexivity|]);
      apply Nat.ltb_lt; reflexivity.
  - pose proof (retreat_length is_slash (d :: before)) as H3.
    set (dir := string_of_list_ascii (rev (retreat is_slash (d :: before)))).
    assert (Hdir : String.length dir < MAXPATHLEN).
    { subst dir. rewrite length_string_of_list_ascii, length_rev.
      simpl in *. lia. }
    exists dir. split; [|exact Hdir].
    destruct (Nat.leb_spec MAXPATHLEN (String.length dir)); [lia | reflexivity].
Qed.

End DarwinFacts.

(** ** Variant A: the runs of [main] *)
Module EmbedStubFacts.
Import CString Darwin CPython EmbedStub Reference CStringFacts.
Local Open Scope proc_scope.

#[local] Arguments snprintf : simpl never.
#[local] Arguments python_home_link : simpl never.
#[local] Arguments EmbedStub.program_name : simpl never.
#[local] Arguments python_site_path : simpl never.
#[local] Arguments python_path : simpl never.
#[local] Arguments python_version : simpl never.
#[local] Arguments dirname : simpl never.

(** Case analysis on the answers of the runtime. *)
Ltac case_status :=
  match goal with
  | |- context [status_SetBytesString ?w ?m ?s] =>
      destruct (status_SetBytesString w m s) eqn:?
  | |- context [status_SetBytesArgv ?w ?n ?a] =>
      destruct (status_SetBytesArgv w n a) eqn:?
  | |- context [status_InitializeFromConfig ?w ?c] =>
      destruct (status_InitializeFromConfig w c) eqn:?
  | |- context [result_RunMain ?w ?c] =>
      destruct (result_RunMain w c) eqn:?
  end.

(** Runs lines 69 to 99 under every combination of answers. *)
Ltac run_configure :=
  unfold configure_and_run, PyConfig_SetBytesString, PyConfig_SetBytesArgv,
    Py_InitializeFromConfig, Py_RunMain;
  repeat case_status; cbn; repeat (case_status; cbn).

Lemma take_argc (args : list string) :
  take (Z.to_nat (Z.of_nat (length args))) args = args.
Proof. rewrite Nat2Z.id. apply firstn_all. Qed.

(** [main] either stops at a precondition, with one line on standard error
    and the result 1, or goes on to the configuration. *)
Lemma main_cases (w : World) (args : list string) :
  (exists text, main w args = ([Stderr text], Continue 1%Z)) \/
  (exists executable_path app_dir contents_dir python_home,
      NSGetExecutablePath w PATH_MAX = Some executable_path /\
      dirname (Some executable_path) = Some app_dir /\
      dirname (Some app_dir) = Some contents_dir /\
      realpath w (python_home_link contents_dir) = Some python_home /\
      access_R_OK w (python_site_path contents_dir) = true /\
      main w args = configure_and_run w args contents_dir python_home).
Proof.
  unfold main.
  destruct (NSGetExecutablePath w PATH_MAX) as [exe|]; [|left; eauto].
  destruct (dirname (Some exe)) as [app|] eqn:Happ.
  2: { left. destruct (dirname None); eauto. }
  destruct (dirname (Some app)) as [contents|] eqn:Hcontents; [|left; eauto].
  destruct (realpath w (python_home_link contents)) as [python_home|] eqn:Hhome;
    [|left; eauto].
  destruct (access_R_OK w (python_site_path contents)) eqn:Hsite;
    [|left; cbn; eauto].
  right. exists exe, app, contents, python_home. simpl negb. auto 10.
Qed.

Lemma NSGetExecutablePath_Some (w : World) (size : nat) (path : string) :
  NSGetExecutablePath w size = Some path ->
  path = image_path w /\ String.length path < size.
Proof.
  unfold NSGetExecutablePath.
  destruct (Nat.ltb_spec (String.length (image_path w)) size); [|discriminate].
  intros [= <-]. auto.
Qed.

Lemma configure_and_run_initialize (w : World) (args : list string)
    (contents_dir python_home : string) (config : PyConfig) :
  In (Call_Py_InitializeFromConfig config)
     (trace (configure_and_run w args contents_dir python_home)) ->
  config = launch_config args contents_dir python_home.
Proof.
  run_configure; intros H;
    repeat (destruct H as [H|H]; try discriminate H; try (now inversion H)).
Qed.

(** The configuration [Py_InitializeFromConfig] is called with. *)
Lemma main_initialize (w : World) (args : list string) (config : PyConfig) :
  In (Call_Py_InitializeFromConfig config) (trace (main w args)) ->
  exists app_dir contents_dir python_home,
    dirname (Some (image_path w)) = Some app_dir /\
    dirname (Some app_dir) = Some contents_dir /\
    realpath w (python_home_link contents_dir) = Some python_home /\
    config = launch_config args contents_dir python_home.
Proof.
  destruct (main_cases w args)
    as [[text ->] | (exe & app & contents & python_home & Hexe & Happ & Hc & Hh & _ & ->)].
  - cbn. intros [H|[]]. discriminate H.
  - intros H. apply configure_and_run_initialize in H.
    apply NSGetExecutablePath_Some in Hexe as [-> _]. eauto 10.
Qed.

(** The joined list of the specification is the format of line 66 expanded. *)
Lemma join_search_path_list (contents_dir python_home version : string) :
  join_paths (search_path_list contents_dir python_home version) =
  contents_dir +:+ "/Resources/python_site:" +:+
  python_home +:+ "/lib/python" +:+ version +:+ ":" +:+
  python_home +:+ "/lib/python" +:+ version +:+ "/lib-dynload".
Proof.
  unfold join_paths, search_path_list. cbn [String.concat].
  rewrite !append_assoc. reflexivity.
Qed.

(** C3, as amended. The search path of line 66 is the first [PATH_MAX - 1]
    bytes of the list [site; stdlib; lib-dynload] joined with [":"], in that
    order; it is the whole joined list when that is shorter than [PATH_MAX]
    bytes, and a prefix of it in every case. *)
Theorem search_path_order (contents_dir python_home version : string) :
  let joined := join_paths (search_path_list contents_dir python_home version) in
  python_path contents_dir python_home version = snprintf PATH_MAX joined /\
  (exists cut, joined = python_path contents_dir python_home version +:+ cut) /\
  (String.length joined < PATH_MAX ->
   python_path contents_dir python_home version = joined).
Proof.
  intros joined. subst joined.
  assert (H : python_path contents_dir python_home version =
              snprintf PATH_MAX
                (join_paths (search_path_list contents_dir python_home version))).
  { rewrite join_search_path_list. reflexivity. }
  split; [exact H|]. split.
  - rewrite H. apply substring_is_prefix.
  - intros Hfit. rewrite H. now apply snprintf_fits.
Qed.

Lemma search_path_order_witness :
  String.length
    (join_paths
       (search_path_list Scenario.applications_contents
          (Scenario.framework_version Scenario.applications_contents "3.11") "3.11"))
  < PATH_MAX /\
  python_path Scenario.applications_contents
    (Scenario.framework_version Scenario.applications_contents "3.11") "3.11"
  = join_paths
      (search_path_list Scenario.applications_contents
         (Scenario.framework_version Scenario.applications_contents "3.11") "3.11").
Proof.
  assert (Hfit : String.length
    (join_paths
       (search_path_list Scenario.applications_contents
          (Scenario.framework_version Scenario.applications_contents "3.11") "3.11"))
    < PATH_MAX) by (apply Nat.ltb_lt; vm_compute; reflexivity).
  split; [exact Hfit|].
  exact (proj2 (proj2 (search_path_order Scenario.applications_contents
    (Scenario.framework_version Scenario.applications_contents "3.11") "3.11")) Hfit).
Defined.

(** C3 as stated fails: for a bundle 499 bytes deep the joined list has 1647
    bytes and line 66 keeps 1023 of them, which end inside the second
    entry. *)
Lemma search_path_order_counterexample :
  String.length
    (join_paths
       (search_path_list Scenario.nested_contents
          (Scenario.framework_version Scenario.nested_contents "3.11") "3.11"))
  = 1647 /\
  String.length
    (python_path Scenario.nested_contents
       (Scenario.framework_version Scenario.nested_contents "3.11") "3.11")
  = 1023 /\
  python_path Scenario.nested_contents
    (Scenario.framework_version Scenario.nested_contents "3.11") "3.11"
  <> join_paths
       (search_path_list Scenario.nested_contents
          (Scenario.framework_version Scenario.nested_contents "3.11") "3.11").
Proof.
  split; [vm_compute; reflexivity|]. split; [vm_compute; reflexivity|].
  intros H. apply (f_equal String.length) in H. vm_compute in H. discriminate H.
Qed.

(** *** The version component *)

Lemma path_segments_shape (path : string) :
  match strrchr path "/" with
  | None => path_segments path = [path]
  | Some _ => exists first second more, path_segments path = first :: second :: more
  end.
Proof.
  induction path as [|c rest IH]; [reflexivity|].
  simpl. destruct (strrchr rest "/") as [j|].
  - destruct IH as (first & second & more & ->).
    destruct (Ascii.eqb c "/"); eauto.
  - rewrite IH. destruct (Ascii.eqb c "/"); eauto.
Qed.

Lemma final_path_segment_after (path : string) (i : nat) :
  strrchr path "/" = Some i -> final_path_segment path = after path i.
Proof.
  unfold final_path_segment.
  revert i; induction path as [|c rest IH]; intros i; [discriminate|].
  simpl. pose proof (path_segments_shape rest) as Hshape.
  destruct (strrchr rest "/") as [j|].
  - intros [= <-]. rewrite after_cons, <- (IH j eq_refl).
    destruct Hshape as (first & second & more & ->).
    destruct (Ascii.eqb c "/"); reflexivity.
  - destruct (Ascii.eqb c "/"); [|discriminate].
    intros [= <-]. rewrite Hshape, after_first. reflexivity.
Qed.

(** C6. The version is the final path segment of the resolved runtime home,
    an absolute path as [realpath] gives it, and ["3.10"] when that segment
    is empty. *)
Theorem python_version_final_segment (python_home : string) :
  is_absolute python_home ->
  python_version python_home =
    if String.eqb (final_path_segment python_home) ""
    then "3.10" else final_path_segment python_home.
Proof.
  intros [rest ->].
  destruct (strrchr_absolute rest) as [i Hi].
  rewrite (final_path_segment_after _ _ Hi).
  unfold python_version. rewrite Hi.
  pose proof (strrchr_lt _ _ _ Hi) as Hlt.
  pose proof (after_length _ _ Hlt) as Hlen.
  destruct (Nat.eqb_spec (S i) (String.length (String "/" rest))) as [Heq|Hne].
  - destruct (after (String "/" rest) i); [reflexivity|].
    simpl String.length in *. lia.
  - destruct (after (String "/" rest) i); [|reflexivity].
    simpl String.length in *. lia.
Qed.

Lemma python_version_final_segment_witness :
  is_absolute (Scenario.framework_version Scenario.applications_contents "3.11") /\
  python_version (Scenario.framework_version Scenario.applications_contents "3.11")
  = "3.11".
Proof.
  assert (Habs : is_absolute
            (Scenario.framework_version Scenario.applications_contents "3.11")).
  { eexists. vm_compute. reflexivity. }
  split; [exact Habs|].
  rewrite (python_version_final_segment _ Habs). vm_compute. reflexivity.
Defined.

Example final_path_segment_examples :
  final_path_segment "/Library/Frameworks/Python.framework/Versions/3.11" = "3.11" /\
  final_path_segment "/Library/Frameworks/" = "" /\
  final_path_segment "Versions" = "Versions".
Proof. vm_compute. repeat split. Qed.

(** Where the final segment is empty, and where there is no separator at
    all, the version is the default. *)
Example python_version_defaults :
  python_version "/" = "3.10" /\
  python_version "/Library/Frameworks/" = "3.10" /\
  python_version "Versions" = "3.10".
Proof. vm_compute. repeat split. Qed.

(** *** The configuration handed to the runtime *)

(** C10, as amended. The program name of the configuration handed to
    [Py_InitializeFromConfig] is the first [PATH_MAX - 1] bytes of the
    resolved runtime home followed by ["/bin/python3"], and the whole of it
    when the home is shorter than [PATH_MAX - 12] bytes. *)
Theorem program_name_of_runtime_home (w : World) (args : list string)
    (config : PyConfig) (app_dir contents_dir python_home : string) :
  In (Call_Py_InitializeFromConfig config) (trace (main w args)) ->
  dirname (Some (image_path w)) = Some app_dir ->
  dirname (Some app_dir) = Some contents_dir ->
  realpath w (python_home_link contents_dir) = Some python_home ->
  CPython.program_name config =
    Some (snprintf PATH_MAX (python_home +:+ "/bin/python3")) /\
  (String.length python_home + 12 < PATH_MAX ->
   CPython.program_name config = Some (python_home +:+ "/bin/python3")).
Proof.
  intros H Happ Hcontents Hhome.
  destruct (main_initialize w args config H)
    as (app' & contents' & python_home' & Happ' & Hcontents' & Hhome' & ->).
  rewrite Happ in Happ'. injection Happ' as <-.
  rewrite Hcontents in Hcontents'. injection Hcontents' as <-.
  rewrite Hhome in Hhome'. injection Hhome' as <-.
  split; [reflexivity|].
  intros Hfit. cbn [CPython.program_name launch_config].
  unfold EmbedStub.program_name. rewrite snprintf_fits; [reflexivity|].
  rewrite length_append. simpl String.length. lia.
Qed.

Lemma program_name_of_runtime_home_witness :
  In (Call_Py_InitializeFromConfig
        (launch_config ["python3_embed"; "-m"; "marcut"]
           Scenario.applications_contents
           (Scenario.framework_version Scenario.applications_contents "3.11")))
     (trace (main (Scenario.bundle Scenario.applications_contents "3.11" true
                     PyStatus_Ok)
               ["python3_embed"; "-m"; "marcut"])) /\
  String.length (Scenario.framework_version Scenario.applications_contents "3.11")
    + 12 < PATH_MAX /\
  CPython.program_name
    (launch_config ["python3_embed"; "-m"; "marcut"]
       Scenario.applications_contents
       (Scenario.framework_version Scenario.applications_contents "3.11"))
  = Some (Scenario.framework_version Scenario.applications_contents "3.11"
          +:+ "/bin/python3").
Proof.
  assert (Hin : In (Call_Py_InitializeFromConfig
        (launch_config ["python3_embed"; "-m"; "marcut"]
           Scenario.applications_contents
           (Scenario.framework_version Scenario.applications_contents "3.11")))
     (trace (main (Scenario.bundle Scenario.applications_contents "3.11" true
                     PyStatus_Ok)
               ["python3_embed"; "-m"; "marcut"]))).
  { vm_compute. do 5 right. left. reflexivity. }
  assert (Hfit : String.length
            (Scenario.framework_version Scenario.applications_contents "3.11")
          + 12 < PATH_MAX) by (apply Nat.ltb_lt; vm_compute; reflexivity).
  split; [exact Hin|]. split; [exact Hfit|].
  refine (proj2 (program_name_of_runtime_home _ _ _
            "/Applications/MarcutApp.app/Contents/MacOS"
            Scenario.applications_contents
            (Scenario.framework_version Scenario.applications_contents "3.11")
            Hin _ _ _) Hfit); vm_compute; reflexivity.
Defined.

(** C10 as stated fails: in a bundle 975 bytes deep the runtime home has 1017
    bytes, and the program name handed to the runtime is cut after 1023
    bytes, inside ["/bin/python3"]. *)
Lemma program_name_of_runtime_home_counterexample :
  In (Call_Py_InitializeFromConfig
        (launch_config ["python3_embed"] Scenario.deeply_nested_contents
           (Scenario.framework_version Scenario.deeply_nested_contents "3.11")))
     (trace (main (Scenario.bundle Scenario.deeply_nested_contents "3.11" true
                     PyStatus_Ok)
               ["python3_embed"])) /\
  realpath (Scenario.bundle Scenario.deeply_nested_contents "3.11" true PyStatus_Ok)
    (python_home_link Scenario.deeply_nested_contents)
  = Some (Scenario.framework_version Scenario.deeply_nested_contents "3.11") /\
  CPython.program_name
    (launch_config ["python3_embed"] Scenario.deeply_nested_contents
       (Scenario.framework_version Scenario.deeply_nested_contents "3.11"))
  <> Some (Scenario.framework_version Scenario.deeply_nested_contents "3.11"
           +:+ "/bin/python3").
Proof.
  split; [vm_compute; do 5 right; left; reflexivity|].
  split; [vm_compute; reflexivity|].
  intros H. apply (f_equal (option_map String.length)) in H.
  vm_compute in H. discriminate H.
Qed.

(** C7. The configuration handed to [Py_InitializeFromConfig] has every
    isolation flag set: no host environment, no user site directory, no
    bytecode written, and neither configuration nor buffering of the standard
    streams by the runtime. *)
Theorem isolation_flags_set (w : World) (args : list string) (config : PyConfig) :
  In (Call_Py_InitializeFromConfig config) (trace (main w args)) ->
  isolated config = 1%Z /\
  use_environment config = 0%Z /\
  user_site_directory config = 0%Z /\
  write_bytecode config = 0%Z /\
  configure_c_stdio config = 0%Z /\
  buffered_stdio config = 0%Z.
Proof.
  intros H.
  destruct (main_initialize w args config H) as (? & ? & ? & _ & _ & _ & ->).
  repeat split.
Qed.

Lemma isolation_flags_set_witness :
  In (Call_Py_InitializeFromConfig
        (launch_config ["python3_embed"] Scenario.applications_contents
           (Scenario.framework_version Scenario.applications_contents "3.11")))
     (trace (main (Scenario.bundle Scenario.applications_contents "3.11" true
                     PyStatus_Ok)
               ["python3_embed"])) /\
  use_environment
    (launch_config ["python3_embed"] Scenario.applications_contents
       (Scenario.framework_version Scenario.applications_contents "3.11")) = 0%Z.
Proof.
  assert (Hin : In (Call_Py_InitializeFromConfig
        (launch_config ["python3_embed"] Scenario.applications_contents
           (Scenario.framework_version Scenario.applications_contents "3.11")))
     (trace (main (Scenario.bundle Scenario.applications_contents "3.11" true
                     PyStatus_Ok)
               ["python3_embed"]))).
  { vm_compute. do 5 right. left. reflexivity. }
  split; [exact Hin|].
  exact (proj1 (proj2 (isolation_flags_set _ _ _ Hin))).
Defined.

Lemma configure_and_run_argv (w : World) (args : list string)
    (contents_dir python_home : string) (argc : Z) (passed : list string) :
  In (Call_PyConfig_SetBytesArgv argc passed)
     (trace (configure_and_run w args contents_dir python_home)) ->
  argc = Z.of_nat (length args) /\ passed = args.
Proof.
  run_configure; intros H;
    repeat (destruct H as [H|H]; try discriminate H;
            try (now injection H as <- <-));
    contradiction.
Qed.

(** C5. Whatever the argument vector, [PyConfig_SetBytesArgv] is called with
    its count and its entries as they are, and the configuration handed to
    [Py_InitializeFromConfig] holds the same entries in the same order. *)
Theorem argv_forwarded_verbatim (w : World) (args : list string) :
  (forall argc passed,
     In (Call_PyConfig_SetBytesArgv argc passed) (trace (main w args)) ->
     argc = Z.of_nat (length args) /\ passed = args) /\
  (forall config,
     In (Call_Py_InitializeFromConfig config) (trace (main w args)) ->
     argv config = args /\ length (argv config) = length args).
Proof.
  split.
  - intros argc passed.
    destruct (main_cases w args) as [[text ->] | (? & ? & c & h & _ & _ & _ & _ & _ & ->)].
    + cbn. intros [H|[]]. discriminate H.
    + apply configure_and_run_argv.
  - intros config H.
    destruct (main_initialize w args config H) as (? & ? & ? & _ & _ & _ & ->).
    cbn [argv launch_config]. rewrite take_argc. auto.
Qed.

Lemma argv_forwarded_verbatim_witness :
  In (Call_Py_InitializeFromConfig
        (launch_config ["python3_embed"; "-m"; "marcut"; "--redact"; "in.docx"]
           Scenario.applications_contents
           (Scenario.framework_version Scenario.applications_contents "3.11")))
     (trace (main (Scenario.bundle Scenario.applications_contents "3.11" true
                     PyStatus_Ok)
               ["python3_embed"; "-m"; "marcut"; "--redact"; "in.docx"])) /\
  argv
    (launch_config ["python3_embed"; "-m"; "marcut"; "--redact"; "in.docx"]
       Scenario.applications_contents
       (Scenario.framework_version Scenario.applications_contents "3.11"))
  = ["python3_embed"; "-m"; "marcut"; "--redact"; "in.docx"].
Proof.
  assert (Hin : In (Call_Py_InitializeFromConfig
        (launch_config ["python3_embed"; "-m"; "marcut"; "--redact"; "in.docx"]
           Scenario.applications_contents
           (Scenario.framework_version Scenario.applications_contents "3.11")))
     (trace (main (Scenario.bundle Scenario.applications_contents "3.11" true
                     PyStatus_Ok)
               ["python3_embed"; "-m"; "marcut"; "--redact"; "in.docx"]))).
  { vm_compute. do 5 right. left. reflexivity. }
  split; [exact Hin|].
  exact (proj1 (proj2 (argv_forwarded_verbatim _ _) _ Hin)).
Defined.

Lemma configure_and_run_starts (w : World) (args : list string)
    (contents_dir python_home : string) :
  exists rest,
    trace (configure_and_run w args contents_dir python_home)
    = Call_PyConfig_InitPythonConfig :: rest.
Proof. run_configure; eauto. Qed.

(** C4, as amended. When the executable path does not fit its buffer,
    [main] writes its message to standard error and returns 1. So it does,
    with the line that names the stage and the path, when the first
    [PATH_MAX - 1] bytes of [<contents>/Frameworks/Python.framework/Versions/Current]
    do not resolve, and when the first [PATH_MAX - 1] bytes of
    [<contents>/Resources/python_site] cannot be read; for a contents
    directory shorter than [PATH_MAX - 45] bytes these are the two paths
    themselves. That line is then all the process did, no configuration was
    initialized, and every run that initializes no configuration ends this
    way. *)
Theorem precondition_failure_exits (w : World) (args : list string) :
  (NSGetExecutablePath w PATH_MAX = None ->
   main w args =
     ([Stderr ("python3_embed: Failed to get executable path" +:+ LF)],
      Continue 1%Z)) /\
  (forall app_dir contents_dir,
     NSGetExecutablePath w PATH_MAX = Some (image_path w) ->
     dirname (Some (image_path w)) = Some app_dir ->
     dirname (Some app_dir) = Some contents_dir ->
     realpath w
       (snprintf PATH_MAX
          (contents_dir +:+ "/Frameworks/Python.framework/Versions/Current"))
     = None ->
     main w args =
       ([Stderr ("python3_embed: Unable to resolve Python home at " +:+
                 snprintf PATH_MAX
                   (contents_dir +:+
                    "/Frameworks/Python.framework/Versions/Current") +:+ LF)],
        Continue 1%Z)) /\
  (forall app_dir contents_dir python_home,
     NSGetExecutablePath w PATH_MAX = Some (image_path w) ->
     dirname (Some (image_path w)) = Some app_dir ->
     dirname (Some app_dir) = Some contents_dir ->
     realpath w
       (snprintf PATH_MAX
          (contents_dir +:+ "/Frameworks/Python.framework/Versions/Current"))
     = Some python_home ->
     access_R_OK w
       (snprintf PATH_MAX (contents_dir +:+ "/Resources/python_site")) = false ->
     main w args =
       ([Stderr ("python3_embed: python_site not found at " +:+
                 snprintf PATH_MAX (contents_dir +:+ "/Resources/python_site")
                 +:+ LF)],
        Continue 1%Z)) /\
  (forall app_dir contents_dir,
     NSGetExecutablePath w PATH_MAX = Some (image_path w) ->
     dirname (Some (image_path w)) = Some app_dir ->
     dirname (Some app_dir) = Some contents_dir ->
     String.length contents_dir + 45 < PATH_MAX ->
     realpath w (contents_dir +:+ "/Frameworks/Python.framework/Versions/Current")
     = None ->
     main w args =
       ([Stderr ("python3_embed: Unable to resolve Python home at " +:+
                 (contents_dir +:+ "/Frameworks/Python.framework/Versions/Current")
                 +:+ LF)],
        Continue 1%Z)) /\
  (forall app_dir contents_dir python_home,
     NSGetExecutablePath w PATH_MAX = Some (image_path w) ->
     dirname (Some (image_path w)) = Some app_dir ->
     dirname (Some app_dir) = Some contents_dir ->
     String.length contents_dir + 45 < PATH_MAX ->
     realpath w (contents_dir +:+ "/Frameworks/Python.framework/Versions/Current")
     = Some python_home ->
     access_R_OK w (contents_dir +:+ "/Resources/python_site") = false ->
     main w args =
       ([Stderr ("python3_embed: python_site not found at " +:+
                 (contents_dir +:+ "/Resources/python_site") +:+ LF)],
        Continue 1%Z)) /\
  (forall text,
     main w args = ([Stderr text], Continue 1%Z) ->
     ~ In Call_PyConfig_InitPythonConfig (trace (main w args)) /\
     forall config,
       ~ In (Call_Py_InitializeFromConfig config) (trace (main w args))) /\
  (~ In Call_PyConfig_InitPythonConfig (trace (main w args)) ->
   exists text, main w args = ([Stderr text], Continue 1%Z)).
Proof.
  assert (Hcut_home : forall app c,
    NSGetExecutablePath w PATH_MAX = Some (image_path w) ->
    dirname (Some (image_path w)) = Some app ->
    dirname (Some app) = Some c ->
    realpath w (python_home_link c) = None ->
    main w args =
      ([Stderr ("python3_embed: Unable to resolve Python home at " +:+
                python_home_link c +:+ LF)], Continue 1%Z)).
  { intros app c Hexe Happ Hc Hhome. unfold main.
    rewrite Hexe, Happ, Hc, Hhome. reflexivity. }
  assert (Hcut_site : forall app c h,
    NSGetExecutablePath w PATH_MAX = Some (image_path w) ->
    dirname (Some (image_path w)) = Some app ->
    dirname (Some app) = Some c ->
    realpath w (python_home_link c) = Some h ->
    access_R_OK w (python_site_path c) = false ->
    main w args =
      ([Stderr ("python3_embed: python_site not found at " +:+
                python_site_path c +:+ LF)], Continue 1%Z)).
  { intros app c h Hexe Happ Hc Hhome Hsite. unfold main.
    rewrite Hexe, Happ, Hc, Hhome, Hsite. reflexivity. }
  assert (Hlink : forall c, String.length c + 45 < PATH_MAX ->
    python_home_link c = c +:+ "/Frameworks/Python.framework/Versions/Current").
  { intros c Hfit. apply snprintf_fits. rewrite length_append.
    simpl String.length. lia. }
  assert (Hsitep : forall c, String.length c + 45 < PATH_MAX ->
    python_site_path c = c +:+ "/Resources/python_site").
  { intros c Hfit. apply snprintf_fits. rewrite length_append.
    simpl String.length. lia. }
  split; [|split; [|split; [|split; [|split; [|split]]]]].
  - intros H. unfold main. rewrite H. reflexivity.
  - exact Hcut_home.
  - exact Hcut_site.
  - intros app c Hexe Happ Hc Hfit Hhome.
    rewrite <- (Hlink c Hfit) in *. now apply (Hcut_home app c).
  - intros app c h Hexe Happ Hc Hfit Hhome Hsite.
    rewrite <- (Hlink c Hfit) in Hhome. rewrite <- (Hsitep c Hfit) in *.
    now apply (Hcut_site app c h).
  - intros text ->. split; [|intros config]; cbn; intros [H|[]]; discriminate H.
  - intros Hnone.
    destruct (main_cases w args)
      as [Hstop | (? & ? & c & h & _ & _ & _ & _ & _ & Hrun)]; [exact Hstop|].
    exfalso. apply Hnone. rewrite Hrun.
    destruct (configure_and_run_starts w args c h) as [rest ->]. now left.
Qed.

Lemma precondition_failure_exits_witness :
  (NSGetExecutablePath
     (Scenario.bundle Scenario.overlong_contents "3.11" true PyStatus_Ok) PATH_MAX
   = None /\
   main (Scenario.bundle Scenario.overlong_contents "3.11" true PyStatus_Ok)
     ["python3_embed"]
   = ([Stderr ("python3_embed: Failed to get executable path" +:+ LF)],
      Continue 1%Z)) /\
  (String.length Scenario.applications_contents + 45 < PATH_MAX /\
   realpath (Scenario.bundle_without_current Scenario.applications_contents)
     (Scenario.applications_contents +:+
      "/Frameworks/Python.framework/Versions/Current") = None /\
   main (Scenario.bundle_without_current Scenario.applications_contents)
     ["python3_embed"]
   = ([Stderr ("python3_embed: Unable to resolve Python home at " +:+
               (Scenario.applications_contents +:+
                "/Frameworks/Python.framework/Versions/Current") +:+ LF)],
      Continue 1%Z)) /\
  (access_R_OK
     (Scenario.bundle Scenario.applications_contents "3.11" false PyStatus_Ok)
     (Scenario.applications_contents +:+ "/Resources/python_site") = false /\
   main (Scenario.bundle Scenario.applications_contents "3.11" false PyStatus_Ok)
     ["python3_embed"]
   = ([Stderr ("python3_embed: python_site not found at " +:+
               (Scenario.applications_contents +:+ "/Resources/python_site")
               +:+ LF)],
      Continue 1%Z)).
Proof.
  assert (Hfit : String.length Scenario.applications_contents + 45 < PATH_MAX)
    by (apply Nat.ltb_lt; vm_compute; reflexivity).
  split; [|split].
  - assert (H : NSGetExecutablePath
       (Scenario.bundle Scenario.overlong_contents "3.11" true PyStatus_Ok)
       PATH_MAX = None) by (vm_compute; reflexivity).
    split; [exact H|].
    exact (proj1 (precondition_failure_exits _ _) H).
  - assert (H : realpath
       (Scenario.bundle_without_current Scenario.applications_contents)
       (Scenario.applications_contents +:+
        "/Frameworks/Python.framework/Versions/Current") = None)
      by (vm_compute; reflexivity).
    split; [exact Hfit|]. split; [exact H|].
    refine (proj1 (proj2 (proj2 (proj2 (precondition_failure_exits _ _))))
              "/Applications/MarcutApp.app/Contents/MacOS"
              Scenario.applications_contents _ _ _ Hfit H);
      vm_compute; reflexivity.
  - assert (H : access_R_OK
       (Scenario.bundle Scenario.applications_contents "3.11" false PyStatus_Ok)
       (Scenario.applications_contents +:+ "/Resources/python_site") = false)
      by (vm_compute; reflexivity).
    split; [exact H|].
    refine (proj1 (proj2 (proj2 (proj2 (proj2 (precondition_failure_exits _ _)))))
              "/Applications/MarcutApp.app/Contents/MacOS"
              Scenario.applications_contents
              (Scenario.framework_version Scenario.applications_contents "3.11")
              _ _ _ Hfit _ H);
      vm_compute; reflexivity.
Defined.

(** C4 as stated fails: in a bundle 986 bytes deep whose [Versions/Current]
    does not resolve, the link is cut after [.../Versions], which resolves;
    [main] initializes the configuration, reaches [Py_RunMain] and returns
    its result, not 1. *)
Lemma precondition_failure_exits_counterexample :
  dirname (dirname (Some (image_path Scenario.deep_bundle_without_current)))
  = Some Scenario.contents_986 /\
  realpath Scenario.deep_bundle_without_current
    (Scenario.contents_986 +:+ "/Frameworks/Python.framework/Versions/Current")
  = None /\
  In Call_PyConfig_InitPythonConfig
    (trace (main Scenario.deep_bundle_without_current ["python3_embed"])) /\
  In Call_Py_RunMain
    (trace (main Scenario.deep_bundle_without_current ["python3_embed"])) /\
  outcome (main Scenario.deep_bundle_without_current ["python3_embed"])
  = Continue 0%Z.
Proof.
  split; [vm_compute; reflexivity|].
  split; [vm_compute; reflexivity|].
  split; [vm_compute; left; reflexivity|].
  split; [vm_compute; do 7 right; left; reflexivity|].
  vm_compute. reflexivity.
Qed.

(** *** Statuses of the runtime *)

Lemma cons_eq_app {A} (x : A) (l before : list A) (e : A) (after : list A) :
  x :: l = before ++ e :: after ->
  (before = [] /\ e = x /\ after = l) \/
  (exists before', before = x :: before' /\ l = before' ++ e :: after).
Proof.
  destruct before as [|y before]; simpl; intros [= -> ->]; eauto.
Qed.

(** Every position an event can have in a trace that is known. *)
Ltac split_trace H :=
  repeat
    match type of H with
    | _ :: _ = _ ++ _ :: _ =>
        apply cons_eq_app in H;
        destruct H as [(-> & ? & ->) | (? & -> & H)]
    | [] = _ ++ _ :: _ => exfalso; exact (app_cons_not_nil _ _ _ H)
    end.

(** Uses the answer of the runtime recorded by [case_status]. *)
Ltac use_status Hrep Hexc :=
  cbn in Hrep; try discriminate Hrep;
  match type of Hrep with
  | Some ?call = Some _ =>
      match goal with
      | Heq : call = _ |- _ =>
          rewrite Heq in Hrep; injection Hrep as <-;
          try discriminate Hexc; repeat split; reflexivity
      end
  end.

Lemma configure_and_run_reported (w : World) (args : list string)
    (contents_dir python_home : string)
    (before : list Event) (e : Event) (after : list Event) (status : PyStatus) :
  trace (configure_and_run w args contents_dir python_home) = before ++ e :: after ->
  reported_status w e = Some status ->
  PyStatus_Exception status = true ->
  after = [Call_PyConfig_Clear; Call_Py_ExitStatusException status] /\
  outcome (configure_and_run w args contents_dir python_home) = Terminated status.
Proof.
  run_configure; intros H Hrep Hexc; split_trace H; subst e;
    use_status Hrep Hexc.
Qed.

Lemma configure_and_run_no_stderr (w : World) (args : list string)
    (contents_dir python_home text : string) :
  ~ In (Stderr text) (trace (configure_and_run w args contents_dir python_home)).
Proof.
  run_configure; intros H;
    repeat (destruct H as [H|H]; try discriminate H); contradiction.
Qed.

Lemma configure_and_run_clears_once (w : World) (args : list string)
    (contents_dir python_home : string) :
  count_clear (trace (configure_and_run w args contents_dir python_home)) = 1.
Proof. run_configure; reflexivity. Qed.

Lemma configure_and_run_clear_follows (w : World) (args : list string)
    (contents_dir python_home : string)
    (before : list Event) (config : PyConfig) (after : list Event) :
  trace (configure_and_run w args contents_dir python_home)
  = before ++ Call_Py_InitializeFromConfig config :: after ->
  count_clear before = 0 /\
  exists after', after = Call_PyConfig_Clear :: after' /\ count_clear after' = 0.
Proof.
  run_configure; intros H; split_trace H; simplify_eq;
    (split; [reflexivity | eexists; split; reflexivity]).
Qed.

Lemma handle_status_exception (status : PyStatus) (config : PyConfig) :
  PyStatus_Exception status = true ->
  handle_status status (Some config)
  = ([Call_PyConfig_Clear; Call_Py_ExitStatusException status], Terminated status) /\
  handle_status status None
  = ([Call_Py_ExitStatusException status], Terminated status).
Proof. intros H. unfold handle_status. rewrite H. split; reflexivity. Qed.

(** C8. [handle_status] given a failure status clears the configuration it
    was given and then calls [Py_ExitStatusException] with that status; in
    [main], whenever a call of the runtime reports a failure status, what
    follows is [PyConfig_Clear], then [Py_ExitStatusException] with the
    status as reported, which ends the process, and nothing is written to
    standard error. Every run that initializes a configuration clears it
    once, and a run that reaches [Py_InitializeFromConfig] clears it right
    after that call, whatever its status. *)
Theorem status_failure_clears_then_exits (w : World) (args : list string) :
  (forall status config,
     PyStatus_Exception status = true ->
     handle_status status (Some config)
     = ([Call_PyConfig_Clear; Call_Py_ExitStatusException status],
        Terminated status) /\
     handle_status status None
     = ([Call_Py_ExitStatusException status], Terminated status)) /\
  (forall before e after status,
     trace (main w args) = before ++ e :: after ->
     reported_status w e = Some status ->
     PyStatus_Exception status = true ->
     after = [Call_PyConfig_Clear; Call_Py_ExitStatusException status] /\
     outcome (main w args) = Terminated status /\
     forall text, ~ In (Stderr text) (trace (main w args))) /\
  (In Call_PyConfig_InitPythonConfig (trace (main w args)) ->
   count_clear (trace (main w args)) = 1) /\
  (forall before config after,
     trace (main w args) = before ++ Call_Py_InitializeFromConfig config :: after ->
     count_clear before = 0 /\
     exists after', after = Call_PyConfig_Clear :: after' /\ count_clear after' = 0).
Proof.
  split; [exact handle_status_exception|].
  destruct (main_cases w args)
    as [[text ->] | (? & ? & c & h & _ & _ & _ & _ & _ & ->)].
  - split; [|split].
    + intros before e after status H Hrep _. cbn in H. split_trace H.
      subst e. discriminate Hrep.
    + cbn. intros [H|[]]. discriminate H.
    + intros before config after H. cbn in H. split_trace H. discriminate.
  - split; [|split].
    + intros before e after status H Hrep Hexc.
      destruct (configure_and_run_reported _ _ _ _ _ _ _ _ H Hrep Hexc).
      repeat split; auto. intros text. apply configure_and_run_no_stderr.
    + intros _. apply configure_and_run_clears_once.
    + intros before config after. apply configure_and_run_clear_follows.
Qed.

Lemma status_failure_clears_then_exits_witness :
  trace (main Scenario.failing_runtime ["python3_embed"])
  = Scenario.configuration_calls ["python3_embed"] ++
    Call_Py_InitializeFromConfig
      (launch_config ["python3_embed"] Scenario.applications_contents
         Scenario.applications_home)
    :: [Call_PyConfig_Clear;
        Call_Py_ExitStatusException
          (PyStatus_Error "failed to get the Python codec of the filesystem encoding")] /\
  outcome (main Scenario.failing_runtime ["python3_embed"])
  = Terminated
      (PyStatus_Error "failed to get the Python codec of the filesystem encoding") /\
  In Call_PyConfig_InitPythonConfig
    (trace (main Scenario.failing_runtime ["python3_embed"])) /\
  count_clear (trace (main Scenario.failing_runtime ["python3_embed"])) = 1.
Proof.
  assert (Htrace : trace (main Scenario.failing_runtime ["python3_embed"])
    = Scenario.configuration_calls ["python3_embed"] ++
      Call_Py_InitializeFromConfig
        (launch_config ["python3_embed"] Scenario.applications_contents
           Scenario.applications_home)
      :: [Call_PyConfig_Clear;
          Call_Py_ExitStatusException
            (PyStatus_Error
               "failed to get the Python codec of the filesystem encoding")])
    by (vm_compute; reflexivity).
  assert (Hin : In Call_PyConfig_InitPythonConfig
                  (trace (main Scenario.failing_runtime ["python3_embed"])))
    by (vm_compute; left; reflexivity).
  destruct (status_failure_clears_then_exits Scenario.failing_runtime
              ["python3_embed"]) as (_ & Hreported & Hcount & _).
  split; [exact Htrace|]. split.
  - exact (proj1 (proj2 (Hreported _ _ _ _ Htrace eq_refl eq_refl))).
  - split; [exact Hin | exact (Hcount Hin)].
Defined.

(** *** More on the runs of variant A *)

#[local] Arguments configure_and_run : simpl never.

(** X1. With the executable at [<contents>/MacOS/<name>], the two [dirname]
    calls give [<contents>]; [main] resolves
    [<contents>/Frameworks/Python.framework/Versions/Current], tests
    [<contents>/Resources/python_site], and goes on to the configuration
    with that directory and the resolved home. *)
Theorem bundle_layout (w : World) (args : list string)
    (contents_dir name : string) :
  directory_path contents_dir ->
  path_component name ->
  image_path w = contents_dir +:+ "/MacOS/" +:+ name ->
  String.length (image_path w) < PATH_MAX ->
  String.length contents_dir + 45 < PATH_MAX ->
  dirname (Some (image_path w)) = Some (contents_dir +:+ "/MacOS") /\
  dirname (Some (contents_dir +:+ "/MacOS")) = Some contents_dir /\
  main w args =
    match realpath w
            (contents_dir +:+ "/Frameworks/Python.framework/Versions/Current") with
    | None =>
        ([Stderr ("python3_embed: Unable to resolve Python home at " +:+
                  (contents_dir +:+ "/Frameworks/Python.framework/Versions/Current")
                  +:+ LF)],
         Continue 1%Z)
    | Some python_home =>
        if access_R_OK w (contents_dir +:+ "/Resources/python_site")
        then configure_and_run w args contents_dir python_home
        else
          ([Stderr ("python3_embed: python_site not found at " +:+
                    (contents_dir +:+ "/Resources/python_site") +:+ LF)],
           Continue 1%Z)
    end.
Proof.
  intros Hdir Hname Himage Hlen Hfit.
  assert (Happ : dirname (Some (image_path w)) = Some (contents_dir +:+ "/MacOS")).
  { rewrite Himage.
    replace (contents_dir +:+ "/MacOS/" +:+ name)
      with ((contents_dir +:+ "/MacOS") +:+ "/" +:+ name)
      by (rewrite append_assoc; reflexivity).
    apply DarwinFacts.dirname_component; [|exact Hname|].
    - destruct Hdir as (front & c & -> & _).
      exists ((front +:+ String c "") +:+ "/MacO"), "S"%char.
      split; [|discriminate]. rewrite !append_assoc. reflexivity.
    - rewrite Himage, !length_append in Hlen. rewrite length_append.
      simpl String.length in *. unfold MAXPATHLEN. lia. }
  assert (Hcontents : dirname (Some (contents_dir +:+ "/MacOS")) = Some contents_dir).
  { apply (DarwinFacts.dirname_component contents_dir "MacOS");
      [exact Hdir | split; [discriminate | reflexivity] | unfold MAXPATHLEN; lia]. }
  split; [exact Happ|]. split; [exact Hcontents|].
  assert (Hlink : python_home_link contents_dir
                  = contents_dir +:+ "/Frameworks/Python.framework/Versions/Current").
  { apply snprintf_fits. rewrite length_append. simpl String.length. lia. }
  assert (Hsite : python_site_path contents_dir
                  = contents_dir +:+ "/Resources/python_site").
  { apply snprintf_fits. rewrite length_append. simpl String.length. lia. }
  unfold main, NSGetExecutablePath.
  destruct (Nat.ltb_spec (String.length (image_path w)) PATH_MAX); [|lia].
  rewrite Happ, Hcontents, Hlink, Hsite.
  destruct (realpath w _); [|reflexivity].
  destruct (access_R_OK w _); reflexivity.
Qed.

Lemma bundle_layout_witness :
  directory_path Scenario.applications_contents /\
  path_component "python3_embed" /\
  String.length
    (image_path (Scenario.bundle Scenario.applications_contents "3.11" false
                   PyStatus_Ok)) < PATH_MAX /\
  String.length Scenario.applications_contents + 45 < PATH_MAX /\
  dirname (Some "/Applications/MarcutApp.app/Contents/MacOS")
  = Some "/Applications/MarcutApp.app/Contents".
Proof.
  assert (Hdir : directory_path Scenario.applications_contents).
  { exists "/Applications/MarcutApp.app/Content", "s"%char.
    split; [reflexivity | discriminate]. }
  assert (Hname : path_component "python3_embed")
    by (split; [discriminate | reflexivity]).
  assert (Hlen : String.length
    (image_path (Scenario.bundle Scenario.applications_contents "3.11" false
                   PyStatus_Ok)) < PATH_MAX)
    by (apply Nat.ltb_lt; vm_compute; reflexivity).
  assert (Hfit : String.length Scenario.applications_contents + 45 < PATH_MAX)
    by (apply Nat.ltb_lt; vm_compute; reflexivity).
  split; [exact Hdir|]. split; [exact Hname|]. split; [exact Hlen|].
  split; [exact Hfit|].
  exact (proj1 (proj2 (bundle_layout
    (Scenario.bundle Scenario.applications_contents "3.11" false PyStatus_Ok)
    ["python3_embed"] Scenario.applications_contents "python3_embed"
    Hdir Hname eq_refl Hlen Hfit))).
Defined.

(** X2. The component after the last separator is never empty and holds no
    separator, and neither does the default: the version put into the search
    path is always one non-empty path component. *)
Theorem python_version_is_component (python_home : string) :
  python_version python_home <> "" /\
  ~ In "/"%char (list_ascii_of_string (python_version python_home)).
Proof.
  unfold python_version.
  destruct (strrchr python_home "/") as [i|] eqn:Hi.
  2: { split; [discriminate|]. apply strrchr_None_In. reflexivity. }
  destruct (Nat.eqb_spec (S i) (String.length python_home)) as [Heq|Hne].
  { split; [discriminate|]. apply strrchr_None_In. reflexivity. }
  pose proof (strrchr_lt _ _ _ Hi) as Hlt.
  pose proof (after_length _ _ Hlt) as Hlen.
  destruct (strrchr_split _ _ _ Hi) as [_ Hnone].
  split; [|now apply strrchr_None_In].
  intros Hempty. rewrite Hempty in Hlen. simpl in Hlen. lia.
Qed.

(** X3. The exit through ["Failed to resolve app directory structure"] is
    never taken: an executable path that fits its buffer has a directory, and
    that directory has one, [dirname] being Darwin's. *)
Theorem app_directory_always_resolves (w : World) (args : list string) :
  ~ In (Stderr ("python3_embed: Failed to resolve app directory structure" +:+ LF))
      (trace (main w args)).
Proof.
  unfold main.
  destruct (NSGetExecutablePath w PATH_MAX) as [exe|] eqn:Hexe.
  - apply NSGetExecutablePath_Some in Hexe as [-> Hlen].
    destruct (DarwinFacts.dirname_fits _ Hlen) as (app & -> & Happ).
    destruct (DarwinFacts.dirname_fits _ Happ) as (contents & -> & _).
    destruct (realpath w (python_home_link contents)) as [python_home|].
    + destruct (access_R_OK w (python_site_path contents)); simpl negb; cbv iota.
      * apply configure_and_run_no_stderr.
      * intros [H|[]]. apply (f_equal stderr_start) in H.
        vm_compute in H. discriminate H.
    + intros [H|[]]. apply (f_equal stderr_start) in H.
      vm_compute in H. discriminate H.
  - intros [H|[]]. apply (f_equal stderr_start) in H.
    vm_compute in H. discriminate H.
Qed.

(** X4. The configuration handed to [Py_InitializeFromConfig] has as its
    home the path [realpath] gave for the link buffer, whole, and as its
    search path the string of line 66 built from the contents directory,
    that home and its version; the path that passed the [access] test is
    the first [PATH_MAX - 1] bytes of [<contents>/Resources/python_site],
    which is that directory itself when the contents directory is shorter
    than [PATH_MAX - 22] bytes. *)
Theorem home_and_search_path_of_config (w : World) (args : list string)
    (config : PyConfig) (app_dir contents_dir python_home : string) :
  In (Call_Py_InitializeFromConfig config) (trace (main w args)) ->
  dirname (Some (image_path w)) = Some app_dir ->
  dirname (Some app_dir) = Some contents_dir ->
  realpath w
    (snprintf PATH_MAX
       (contents_dir +:+ "/Frameworks/Python.framework/Versions/Current"))
  = Some python_home ->
  home config = Some python_home /\
  pythonpath_env config
  = Some (python_path contents_dir python_home (python_version python_home)) /\
  access_R_OK w (snprintf PATH_MAX (contents_dir +:+ "/Resources/python_site"))
  = true /\
  (String.length contents_dir + 22 < PATH_MAX ->
   access_R_OK w (contents_dir +:+ "/Resources/python_site") = true).
Proof.
  intros H Happ Hcontents Hhome.
  change (realpath w (python_home_link contents_dir) = Some python_home) in Hhome.
  destruct (main_cases w args)
    as [[text Hstop] | (exe & app' & c' & h' & Hexe & Happ' & Hc' & Hh' & Hsite & Hrun)].
  { rewrite Hstop in H. destruct H as [H|[]]. discriminate H. }
  apply NSGetExecutablePath_Some in Hexe as [-> _].
  rewrite Happ in Happ'. injection Happ' as <-.
  rewrite Hcontents in Hc'. injection Hc' as <-.
  rewrite Hhome in Hh'. injection Hh' as <-.
  rewrite Hrun in H. apply configure_and_run_initialize in H. subst config.
  split; [reflexivity|]. split; [reflexivity|]. split; [exact Hsite|].
  intros Hfit. unfold python_site_path in Hsite.
  rewrite snprintf_fits in Hsite; [exact Hsite|].
  rewrite length_append. simpl String.length. lia.
Qed.

Lemma home_and_search_path_of_config_witness :
  In (Call_Py_InitializeFromConfig
        (launch_config ["python3_embed"] Scenario.applications_contents
           Scenario.applications_home))
     (trace (main (Scenario.bundle Scenario.applications_contents "3.11" true
                     PyStatus_Ok)
               ["python3_embed"])) /\
  String.length Scenario.applications_contents + 22 < PATH_MAX /\
  home (launch_config ["python3_embed"] Scenario.applications_contents
          Scenario.applications_home)
  = Some Scenario.applications_home /\
  access_R_OK
    (Scenario.bundle Scenario.applications_contents "3.11" true PyStatus_Ok)
    (Scenario.applications_contents +:+ "/Resources/python_site") = true.
Proof.
  assert (Hin : In (Call_Py_InitializeFromConfig
        (launch_config ["python3_embed"] Scenario.applications_contents
           Scenario.applications_home))
     (trace (main (Scenario.bundle Scenario.applications_contents "3.11" true
                     PyStatus_Ok)
               ["python3_embed"]))).
  { vm_compute. do 5 right. left. reflexivity. }
  assert (Hfit : String.length Scenario.applications_contents + 22 < PATH_MAX)
    by (apply Nat.ltb_lt; vm_compute; reflexivity).
  assert (Happ : dirname
            (Some (image_path (Scenario.bundle Scenario.applications_contents
                                 "3.11" true PyStatus_Ok)))
          = Some "/Applications/MarcutApp.app/Contents/MacOS")
    by (vm_compute; reflexivity).
  assert (Hcontents : dirname (Some "/Applications/MarcutApp.app/Contents/MacOS")
                      = Some Scenario.applications_contents)
    by (vm_compute; reflexivity).
  assert (Hhome : realpath
            (Scenario.bundle Scenario.applications_contents "3.11" true PyStatus_Ok)
            (snprintf PATH_MAX
               (Scenario.applications_contents +:+
                "/Frameworks/Python.framework/Versions/Current"))
          = Some Scenario.applications_home) by (vm_compute; reflexivity).
  pose proof (home_and_search_path_of_config _ _ _ _ _ _ Hin Happ Hcontents Hhome)
    as Hall.
  split; [exact Hin|]. split; [exact Hfit|].
  split; [exact (proj1 Hall) | exact (proj2 (proj2 (proj2 Hall)) Hfit)].
Defined.

(** X5. When every precondition holds and the runtime answers every call
    with success, [main] makes the calls of lines 69 to 98 once each and in
    their order, and nothing else; it returns what [Py_RunMain] returned,
    unless the runtime ended the process inside [Py_RunMain]. *)
Theorem successful_launch (w : World) (args : list string)
    (app_dir contents_dir python_home : string) :
  NSGetExecutablePath w PATH_MAX = Some (image_path w) ->
  dirname (Some (image_path w)) = Some app_dir ->
  dirname (Some app_dir) = Some contents_dir ->
  realpath w (python_home_link contents_dir) = Some python_home ->
  access_R_OK w (python_site_path contents_dir) = true ->
  status_SetBytesString w Member_program_name (EmbedStub.program_name python_home)
  = PyStatus_Ok ->
  status_SetBytesString w Member_home python_home = PyStatus_Ok ->
  status_SetBytesString w Member_pythonpath_env
    (python_path contents_dir python_home (python_version python_home))
  = PyStatus_Ok ->
  status_SetBytesArgv w (Z.of_nat (length args)) args = PyStatus_Ok ->
  status_InitializeFromConfig w (launch_config args contents_dir python_home)
  = PyStatus_Ok ->
  main w args =
    (setup_calls args contents_dir python_home ++
     [ Call_Py_InitializeFromConfig (launch_config args contents_dir python_home);
       Call_PyConfig_Clear;
       Call_Py_RunMain ],
     match result_RunMain w (launch_config args contents_dir python_home) with
     | RunMain_returns exit_code => Continue exit_code
     | RunMain_exits exit_code => Exited exit_code
     end).
Proof.
  intros Hexe Happ Hcontents Hhome Hsite H1 H2 H3 H4 H5.
  unfold main. rewrite Hexe, Happ, Hcontents, Hhome, Hsite. simpl negb. cbv iota.
  unfold configure_and_run, PyConfig_SetBytesString, PyConfig_SetBytesArgv,
    Py_InitializeFromConfig, Py_RunMain.
  rewrite H1, H2, H3, H4. cbn.
  match goal with
  | |- context [status_InitializeFromConfig w ?c] =>
      change c with (launch_config args contents_dir python_home)
  end.
  rewrite H5. cbn.
  destruct (result_RunMain w (launch_config args contents_dir python_home));
    reflexivity.
Qed.

Lemma successful_launch_witness :
  main (Scenario.bundle Scenario.applications_contents "3.11" true PyStatus_Ok)
    ["python3_embed"; "-m"; "marcut"]
  = (setup_calls ["python3_embed"; "-m"; "marcut"] Scenario.applications_contents
       Scenario.applications_home ++
     [ Call_Py_InitializeFromConfig
         (launch_config ["python3_embed"; "-m"; "marcut"]
            Scenario.applications_contents Scenario.applications_home);
       Call_PyConfig_Clear;
       Call_Py_RunMain ],
     Continue 0%Z).
Proof.
  refine (successful_launch
            (Scenario.bundle Scenario.applications_contents "3.11" true PyStatus_Ok)
            ["python3_embed"; "-m"; "marcut"]
            "/Applications/MarcutApp.app/Contents/MacOS"
            Scenario.applications_contents Scenario.applications_home
            _ _ _ _ _ _ _ _ _ _); vm_compute; reflexivity.
Defined.

Lemma configure_and_run_main_after_success (w : World) (args : list string)
    (contents_dir python_home : string) :
  In Call_Py_RunMain (trace (configure_and_run w args contents_dir python_home)) ->
  (forall e status,
     In e (trace (configure_and_run w args contents_dir python_home)) ->
     reported_status w e = Some status -> PyStatus_Exception status = false) /\
  (exists config,
     In (Call_Py_InitializeFromConfig config)
        (trace (configure_and_run w args contents_dir python_home)) /\
     outcome (configure_and_run w args contents_dir python_home)
     = match result_RunMain w config with
       | RunMain_returns exit_code => Continue exit_code
       | RunMain_exits exit_code => Exited exit_code
       end) /\
  (exists before,
     trace (configure_and_run w args contents_dir python_home)
     = before ++ [Call_PyConfig_Clear; Call_Py_RunMain]).
Proof.
  run_configure; intros H;
    repeat (destruct H as [H|H]; try discriminate H); try contradiction;
    (split;
     [ intros e status Hin Hrep;
       repeat (destruct Hin as [<-|Hin]); try contradiction;
       cbn in Hrep; try discriminate Hrep; injection Hrep as <-;
       match goal with
       | Heq : _ = PyStatus_Ok |- _ => exact (f_equal PyStatus_Exception Heq)
       end
     | split;
       [ eexists; split; [do 5 right; left; reflexivity|];
         match goal with
         | Heq : result_RunMain _ _ = _ |- _ => rewrite Heq; reflexivity
         end
       | eexists [_; _; _; _; _; _]; reflexivity ] ]).
Qed.

(** X6. [Py_RunMain] is called only when every call before it was answered
    with success; it is then the last thing the process does, after the
    configuration was cleared; [main] returns its result when it returns,
    and otherwise the process has ended inside it. *)
Theorem run_main_only_after_success (w : World) (args : list string) :
  In Call_Py_RunMain (trace (main w args)) ->
  (forall e status,
     In e (trace (main w args)) ->
     reported_status w e = Some status -> PyStatus_Exception status = false) /\
  (exists config,
     In (Call_Py_InitializeFromConfig config) (trace (main w args)) /\
     outcome (main w args)
     = match result_RunMain w config with
       | RunMain_returns exit_code => Continue exit_code
       | RunMain_exits exit_code => Exited exit_code
       end) /\
  (exists before,
     trace (main w args) = before ++ [Call_PyConfig_Clear; Call_Py_RunMain]).
Proof.
  destruct (main_cases w args)
    as [[text ->] | (? & ? & c & h & _ & _ & _ & _ & _ & ->)].
  - intros [H|[]]. discriminate H.
  - apply configure_and_run_main_after_success.
Qed.

Lemma run_main_only_after_success_witness :
  In Call_Py_RunMain
    (trace (main (Scenario.bundle Scenario.applications_contents "3.11" true
                    PyStatus_Ok) ["python3_embed"])) /\
  exists before,
    trace (main (Scenario.bundle Scenario.applications_contents "3.11" true
                   PyStatus_Ok) ["python3_embed"])
    = before ++ [Call_PyConfig_Clear; Call_Py_RunMain].
Proof.
  assert (Hin : In Call_Py_RunMain
    (trace (main (Scenario.bundle Scenario.applications_contents "3.11" true
                    PyStatus_Ok) ["python3_embed"]))).
  { vm_compute. do 7 right. left. reflexivity. }
  split; [exact Hin|].
  exact (proj2 (proj2 (run_main_only_after_success _ _ Hin))).
Defined.

Lemma configure_and_run_terminated (w : World) (args : list string)
    (contents_dir python_home : string) (status : PyStatus) :
  outcome (configure_and_run w args contents_dir python_home) = Terminated status ->
  PyStatus_Exception status = true /\
  exists before e,
    trace (configure_and_run w args contents_dir python_home)
    = before ++ [e; Call_PyConfig_Clear; Call_Py_ExitStatusException status] /\
    reported_status w e = Some status.
Proof.
  run_configure; intros H; try discriminate H; injection H as <-;
    (split; [reflexivity|]);
    first [ eexists [_]; eexists; split; [reflexivity|]
          | eexists [_; _]; eexists; split; [reflexivity|]
          | eexists [_; _; _]; eexists; split; [reflexivity|]
          | eexists [_; _; _; _]; eexists; split; [reflexivity|]
          | eexists [_; _; _; _; _]; eexists; split; [reflexivity|] ];
    match goal with
    | Heq : _ = ?st |- _ = Some ?st => exact (f_equal Some Heq)
    end.
Qed.

(** X7. The process is ended by [Py_ExitStatusException] only with a failure
    status, and only with the one the runtime reported for the call made
    just before the configuration was cleared. *)
Theorem termination_reports_failure (w : World) (args : list string)
    (status : PyStatus) :
  outcome (main w args) = Terminated status ->
  PyStatus_Exception status = true /\
  exists before e,
    trace (main w args)
    = before ++ [e; Call_PyConfig_Clear; Call_Py_ExitStatusException status] /\
    reported_status w e = Some status.
Proof.
  destruct (main_cases w args)
    as [[text ->] | (? & ? & c & h & _ & _ & _ & _ & _ & ->)].
  - discriminate.
  - apply configure_and_run_terminated.
Qed.

Lemma termination_reports_failure_witness :
  outcome (main Scenario.failing_runtime ["python3_embed"])
  = Terminated
      (PyStatus_Error "failed to get the Python codec of the filesystem encoding") /\
  exists before e,
    trace (main Scenario.failing_runtime ["python3_embed"])
    = before ++
      [e; Call_PyConfig_Clear;
       Call_Py_ExitStatusException
         (PyStatus_Error "failed to get the Python codec of the filesystem encoding")] /\
    reported_status Scenario.failing_runtime e
    = Some (PyStatus_Error "failed to get the Python codec of the filesystem encoding").
Proof.
  assert (H : outcome (main Scenario.failing_runtime ["python3_embed"])
    = Terminated
        (PyStatus_Error "failed to get the Python codec of the filesystem encoding"))
    by (vm_compute; reflexivity).
  split; [exact H|].
  exact (proj2 (termination_reports_failure _ _ _ H)).
Defined.

(** A program that raises [SystemExit]: the process ends inside
    [Py_RunMain], after the configuration was cleared, and [main] does not
    return. *)
Example exit_inside_run_main :
  outcome (main Scenario.exiting_program ["python3_embed"; "-c"; "raise SystemExit(2)"])
  = Exited 2%Z /\
  count_clear
    (trace (main Scenario.exiting_program
              ["python3_embed"; "-c"; "raise SystemExit(2)"])) = 1.
Proof. vm_compute. split; reflexivity. Qed.

End EmbedStubFacts.

(** ** Variant B: the runs of [main] *)
Module ExecutableStubFacts.
Import CString ExecutableStub Reference CStringFacts.
Local Open Scope run_scope.

#[local] Arguments snprintf : simpl never.
#[local] Arguments framework_path : simpl never.
#[local] Arguments python_home : simpl never.

Lemma setenv_overwrite (name value : string) (s : State) :
  setenv name value 1 s
  = (tt, mkState (<[name := value]> (environ s)) (loaded s) (dl_error s)
           (events s ++ [Call_setenv name value 1])).
Proof.
  unfold setenv, bind, emit. cbn.
  destruct (environ s !! name); reflexivity.
Qed.

Lemma remove_first_head (handle : Handle) (l : list Handle) :
  remove_first handle (handle :: l) = l.
Proof. simpl. now rewrite Pos.eqb_refl. Qed.

(** [framework_path] always holds a terminated string, so the [strncpy] of
    line 30 copies all of it. *)
Lemma framework_path_terminated (exe_path : string) :
  String.length (framework_path exe_path) < 1024 /\
  strncpy 1024 (framework_path exe_path) = framework_path exe_path.
Proof.
  assert (H : String.length (framework_path exe_path) < 1024).
  { unfold framework_path. destruct (strrchr exe_path "/").
    - apply snprintf_length. lia.
    - apply Nat.ltb_lt. vm_compute. reflexivity. }
  split; [exact H|]. apply substring_all. lia.
Qed.

(** The run up to [dlopen], when the executable path resolves. *)
Lemma main_resolved (w : World) (args : list string) (env : gmap string string)
    (exe_path : string) :
  head args ≫= realpath w = Some exe_path ->
  main w args (initial env) =
    (let* handle := dlopen w (framework_path exe_path) in
     match handle with
     | None =>
         let* text := dlerror in
         fprintf_stderr ("Failed to load Python framework: " +:+ text +:+ LF) ;;
         ret 1%Z
     | Some handle =>
         let* Py_Main := dlsym w handle "Py_Main" in
         match Py_Main with
         | None =>
             let* text := dlerror in
             fprintf_stderr ("Failed to find Py_Main: " +:+ text +:+ LF) ;;
             dlclose handle ;;
             ret 1%Z
         | Some Py_Main =>
             let* result := call_Py_Main Py_Main (Z.of_nat (length args)) args in
             dlclose handle ;;
             ret result
         end
     end)
    (mkState (<["PYTHONHOME" := python_home (framework_path exe_path)]> env) []
       None [Call_setenv "PYTHONHOME" (python_home (framework_path exe_path)) 1]).
Proof.
  intros H. unfold main. rewrite H.
  unfold bind at 1. rewrite setenv_overwrite. reflexivity.
Qed.



(** *** The path of the library *)

Lemma framework_path_with_slash (exe_path : string) (last_slash : nat) :
  strrchr exe_path "/" = Some last_slash ->
  framework_path exe_path
  = snprintf 1024 (cut_at exe_path last_slash +:+ library_offset).
Proof. intros H. unfold framework_path. now rewrite H. Qed.

Lemma python_home_of_library (dir : string) :
  String.length dir + 52 < 1024 ->
  python_home (dir +:+ library_offset)
  = dir +:+ "/../Frameworks/Python.framework/Versions/3.11".
Proof.
  intros Hfit. unfold python_home, strncpy.
  rewrite substring_all
    by (rewrite length_append; change (String.length library_offset) with 52; lia).
  rewrite strrchr_append.
  change (strrchr library_offset "/") with (Some 45).
  unfold cut_at. rewrite substring_append_l. reflexivity.
Qed.

(** C9, as amended. When the executable path resolves and has a separator,
    the library path is the first 1023 bytes of the directory of the
    executable followed by
    [/../Frameworks/Python.framework/Versions/3.11/Python]; when the
    directory is shorter than 972 bytes it is the whole of it, [PYTHONHOME]
    is set to its parent directory, and that is done before [dlopen] is
    called with the library path. *)
Theorem library_path_from_executable (w : World) (args : list string)
    (env : gmap string string) (exe_path : string) (last_slash : nat) :
  head args ≫= realpath w = Some exe_path ->
  strrchr exe_path "/" = Some last_slash ->
  framework_path exe_path
  = snprintf 1024
      (cut_at exe_path last_slash +:+
       "/../Frameworks/Python.framework/Versions/3.11/Python") /\
  (String.length (cut_at exe_path last_slash) + 52 < 1024 ->
   framework_path exe_path
   = cut_at exe_path last_slash +:+
     "/../Frameworks/Python.framework/Versions/3.11/Python" /\
   python_home (framework_path exe_path)
   = cut_at exe_path last_slash +:+
     "/../Frameworks/Python.framework/Versions/3.11" /\
   framework_path exe_path
   = python_home (framework_path exe_path) +:+ "/Python" /\
   environ (snd (main w args (initial env)))
   = <["PYTHONHOME" := python_home (framework_path exe_path)]> env /\
   exists rest,
     events (snd (main w args (initial env)))
     = Call_setenv "PYTHONHOME" (python_home (framework_path exe_path)) 1
       :: Call_dlopen (framework_path exe_path) :: rest).
Proof.
  intros Hexe Hslash.
  pose proof (framework_path_with_slash _ _ Hslash) as Hpath.
  split; [exact Hpath|]. intros Hfit.
  assert (Hlib : framework_path exe_path
                 = cut_at exe_path last_slash +:+ library_offset).
  { rewrite Hpath. apply snprintf_fits.
    rewrite length_append. change (String.length library_offset) with 52. lia. }
  split; [exact Hlib|]. split.
  { rewrite Hlib. now apply python_home_of_library. }
  split.
  { rewrite Hlib, python_home_of_library by exact Hfit.
    rewrite append_assoc. reflexivity. }
  rewrite (main_resolved _ _ _ _ Hexe).
  unfold bind, dlopen, dlsym, dlerror, dlclose, call_Py_Main, fprintf_stderr,
    emit, ret.
  cbn.
  destruct (dlopen_result w (framework_path exe_path)) as [handle|]; cbn;
    [destruct (dlsym_result w handle "Py_Main"); cbn|]; eauto.
Qed.

Lemma library_path_from_executable_witness :
  head ["python_stub"] ≫= realpath (Scenario.installed true)
  = Some Scenario.resources_stub /\
  strrchr Scenario.resources_stub "/" = Some 46 /\
  String.length (cut_at Scenario.resources_stub 46) + 52 < 1024 /\
  framework_path Scenario.resources_stub
  = "/Applications/MarcutApp.app/Contents/Resources"
    +:+ "/../Frameworks/Python.framework/Versions/3.11/Python" /\
  environ (snd (main (Scenario.installed true) ["python_stub"] (initial ∅)))
  = <["PYTHONHOME" := python_home (framework_path Scenario.resources_stub)]> ∅.
Proof.
  assert (Hexe : head ["python_stub"] ≫= realpath (Scenario.installed true)
                 = Some Scenario.resources_stub) by (vm_compute; reflexivity).
  assert (Hslash : strrchr Scenario.resources_stub "/" = Some 46)
    by (vm_compute; reflexivity).
  assert (Hfit : String.length (cut_at Scenario.resources_stub 46) + 52 < 1024)
    by (apply Nat.ltb_lt; vm_compute; reflexivity).
  destruct (proj2 (library_path_from_executable _ _ ∅ _ _ Hexe Hslash) Hfit)
    as (Hlib & _ & _ & Henv & _).
  split; [exact Hexe|]. split; [exact Hslash|]. split; [exact Hfit|].
  split; [exact Hlib | exact Henv].
Defined.

(** C9 as stated fails: for a stub 985 bytes deep the library path has 1037
    bytes, [dlopen] is called with its first 1023 bytes, and never with the
    path itself. *)
Lemma library_path_from_executable_counterexample :
  head ["python_stub"] ≫= realpath Scenario.installed_deep
  = Some Scenario.deeply_nested_stub /\
  strrchr Scenario.deeply_nested_stub "/" = Some 985 /\
  cut_at Scenario.deeply_nested_stub 985 +:+
    "/../Frameworks/Python.framework/Versions/3.11/Python"
  = Scenario.deeply_nested_library /\
  framework_path Scenario.deeply_nested_stub <> Scenario.deeply_nested_library /\
  events (snd (main Scenario.installed_deep ["python_stub"] (initial ∅)))
  = [ Call_setenv "PYTHONHOME"
        (python_home (framework_path Scenario.deeply_nested_stub)) 1;
      Call_dlopen (framework_path Scenario.deeply_nested_stub);
      Stderr ("Failed to load Python framework: " +:+
              dlopen_error Scenario.installed_deep
                (framework_path Scenario.deeply_nested_stub) +:+ LF) ] /\
  python_home (framework_path Scenario.deeply_nested_stub)
  <> Scenario.deeply_nested_contents +:+
     "/Resources/../Frameworks/Python.framework/Versions/3.11".
Proof.
  split; [vm_compute; reflexivity|].
  split; [vm_compute; reflexivity|].
  split; [vm_compute; reflexivity|].
  split.
  { intros H. apply (f_equal String.length) in H. vm_compute in H. discriminate H. }
  split; [vm_compute; reflexivity|].
  intros H. apply (f_equal String.length) in H. vm_compute in H. discriminate H.
Qed.

(** *** An executable path that does not resolve *)

(** With a separator in the resolved path, the library path is never the
    development path: either it has 1023 bytes, or it ends with the offset,
    which the development path does not. *)
Lemma framework_path_not_development (exe_path : string) (last_slash : nat) :
  strrchr exe_path "/" = Some last_slash ->
  framework_path exe_path <> development_framework_path.
Proof.
  intros Hslash Hdev. rewrite (framework_path_with_slash _ _ Hslash) in Hdev.
  set (dir := cut_at exe_path last_slash) in *.
  destruct (Nat.lt_ge_cases (String.length (dir +:+ library_offset)) 1024)
    as [Hfit|Hcut].
  - rewrite snprintf_fits in Hdev by exact Hfit.
    assert (Hlen : String.length dir = 61).
    { apply (f_equal String.length) in Hdev. rewrite length_append in Hdev.
      change (String.length library_offset) with 52 in Hdev.
      change (String.length development_framework_path) with 113 in Hdev. lia. }
    assert (Hend : substring (String.length dir + 0) 52 (dir +:+ library_offset)
                   = substring (String.length dir + 0) 52 development_framework_path)
      by now rewrite Hdev.
    rewrite substring_after_append, Hlen in Hend.
    vm_compute in Hend. discriminate Hend.
  - apply (f_equal String.length) in Hdev. unfold snprintf in Hdev.
    change (1024 - 1) with 1023 in Hdev.
    rewrite (substring_length _ 0 1023) in Hdev by (simpl; lia).
    vm_compute in Hdev. discriminate Hdev.
Qed.

(** C1, as amended. When [realpath] does not resolve the executable path,
    [main] writes ["Could not determine executable path"] to standard error
    and returns 1, having set and loaded nothing. The development path is
    the library path when the resolved path has no separator, and then
    [dlopen] is called with it; when the resolved path has a separator the
    library path is not the development path, and [dlopen] is not called
    with it. *)
Theorem unresolved_executable_path (w : World) (args : list string)
    (env : gmap string string) :
  (head args ≫= realpath w = None ->
   main w args (initial env)
   = (1%Z,
      mkState env [] None
        [Stderr ("Could not determine executable path" +:+ LF)])) /\
  (forall exe_path,
     head args ≫= realpath w = Some exe_path ->
     strrchr exe_path "/" = None ->
     framework_path exe_path = development_framework_path /\
     exists rest,
       events (snd (main w args (initial env)))
       = Call_setenv "PYTHONHOME" (python_home development_framework_path) 1
         :: Call_dlopen development_framework_path :: rest) /\
  (forall exe_path last_slash,
     head args ≫= realpath w = Some exe_path ->
     strrchr exe_path "/" = Some last_slash ->
     framework_path exe_path <> development_framework_path /\
     ~ In (Call_dlopen development_framework_path)
         (events (snd (main w args (initial env))))).
Proof.
  split; [|split].
  - intros H. unfold main. rewrite H. reflexivity.
  - intros exe_path Hexe Hslash.
    assert (Hdev : framework_path exe_path = development_framework_path).
    { unfold framework_path. now rewrite Hslash. }
    split; [exact Hdev|].
    rewrite (main_resolved _ _ _ _ Hexe), Hdev.
    unfold bind, dlopen, dlsym, dlerror, dlclose, call_Py_Main, fprintf_stderr,
      emit, ret.
    cbn.
    destruct (dlopen_result w development_framework_path) as [handle|]; cbn;
      [destruct (dlsym_result w handle "Py_Main"); cbn|]; eauto.
  - intros exe_path last_slash Hexe Hslash.
    pose proof (framework_path_not_development _ _ Hslash) as Hne.
    split; [exact Hne|].
    rewrite (main_resolved _ _ _ _ Hexe).
    unfold bind, dlopen, dlsym, dlerror, dlclose, call_Py_Main, fprintf_stderr,
      emit, ret.
    cbn.
    destruct (dlopen_result w (framework_path exe_path)) as [handle|]; cbn;
      [destruct (dlsym_result w handle "Py_Main"); cbn|];
      intros H;
      repeat (destruct H as [H|H]; try discriminate H); try contradiction;
      injection H as H; exact (Hne H).
Qed.

Lemma unresolved_executable_path_witness :
  (head ["python_stub"] ≫= realpath Scenario.stub_missing = None /\
   main Scenario.stub_missing ["python_stub"] (initial ∅)
   = (1%Z,
      mkState ∅ [] None [Stderr ("Could not determine executable path" +:+ LF)])) /\
  (head ["python_stub"] ≫= realpath Scenario.bare_name = Some "python_stub" /\
   strrchr "python_stub" "/" = None /\
   framework_path "python_stub" = development_framework_path) /\
  (head ["python_stub"] ≫= realpath (Scenario.installed true)
   = Some Scenario.resources_stub /\
   strrchr Scenario.resources_stub "/" = Some 46 /\
   framework_path Scenario.resources_stub <> development_framework_path /\
   ~ In (Call_dlopen development_framework_path)
       (events (snd (main (Scenario.installed true) ["python_stub"] (initial ∅))))).
Proof.
  split; [|split].
  - assert (H : head ["python_stub"] ≫= realpath Scenario.stub_missing = None)
      by (vm_compute; reflexivity).
    split; [exact H|].
    exact (proj1 (unresolved_executable_path _ _ ∅) H).
  - assert (Hexe : head ["python_stub"] ≫= realpath Scenario.bare_name
                   = Some "python_stub") by (vm_compute; reflexivity).
    assert (Hslash : strrchr "python_stub" "/" = None) by (vm_compute; reflexivity).
    split; [exact Hexe|]. split; [exact Hslash|].
    exact (proj1 (proj1 (proj2 (unresolved_executable_path Scenario.bare_name
                                  ["python_stub"] ∅)) _ Hexe Hslash)).
  - assert (Hexe : head ["python_stub"] ≫= realpath (Scenario.installed true)
                   = Some Scenario.resources_stub) by (vm_compute; reflexivity).
    assert (Hslash : strrchr Scenario.resources_stub "/" = Some 46)
      by (vm_compute; reflexivity).
    split; [exact Hexe|]. split; [exact Hslash|].
    exact (proj2 (proj2 (unresolved_executable_path (Scenario.installed true)
                           ["python_stub"] ∅)) _ _ Hexe Hslash).
Defined.

(** C1 as stated fails: when the stub started as [python_stub] does not
    resolve, the process fails with 1 after its message, and never calls
    [dlopen], with the development path or any other. *)
Lemma unresolved_executable_path_counterexample :
  head ["python_stub"] ≫= realpath Scenario.stub_missing = None /\
  fst (main Scenario.stub_missing ["python_stub"] (initial ∅)) = 1%Z /\
  events (snd (main Scenario.stub_missing ["python_stub"] (initial ∅)))
  = [Stderr ("Could not determine executable path" +:+ LF)] /\
  count_dlopen
    (events (snd (main Scenario.stub_missing ["python_stub"] (initial ∅)))) = 0 /\
  ~ In (Call_dlopen development_framework_path)
      (events (snd (main Scenario.stub_missing ["python_stub"] (initial ∅)))).
Proof.
  split; [vm_compute; reflexivity|].
  split; [vm_compute; reflexivity|].
  split; [vm_compute; reflexivity|].
  split; [vm_compute; reflexivity|].
  intros H. vm_compute in H. destruct H as [H|[]]. discriminate H.
Qed.

(** *** More on the runs of variant B *)

(** Every run of [main], by the answers of the machine. *)
Lemma main_runs (w : World) (args : list string) (env : gmap string string) :
  main w args (initial env) =
    match head args ≫= realpath w with
    | None =>
        (1%Z, mkState env [] None
                [Stderr ("Could not determine executable path" +:+ LF)])
    | Some exe_path =>
        match dlopen_result w (framework_path exe_path) with
        | None =>
            (1%Z,
             mkState (<["PYTHONHOME" := python_home (framework_path exe_path)]> env)
               [] None
               [ Call_setenv "PYTHONHOME" (python_home (framework_path exe_path)) 1;
                 Call_dlopen (framework_path exe_path);
                 Stderr ("Failed to load Python framework: " +:+
                         dlopen_error w (framework_path exe_path) +:+ LF) ])
        | Some handle =>
            match dlsym_result w handle "Py_Main" with
            | None =>
                (1%Z,
                 mkState
                   (<["PYTHONHOME" := python_home (framework_path exe_path)]> env)
                   [] None
                   [ Call_setenv "PYTHONHOME"
                       (python_home (framework_path exe_path)) 1;
                     Call_dlopen (framework_path exe_path);
                     Call_dlsym handle "Py_Main";
                     Stderr ("Failed to find Py_Main: " +:+
                             dlsym_error w handle "Py_Main" +:+ LF);
                     Call_dlclose handle ])
            | Some Py_Main =>
                (Py_Main
                   (<["PYTHONHOME" := python_home (framework_path exe_path)]> env)
                   (Z.of_nat (length args)) args,
                 mkState
                   (<["PYTHONHOME" := python_home (framework_path exe_path)]> env)
                   [] None
                   [ Call_setenv "PYTHONHOME"
                       (python_home (framework_path exe_path)) 1;
                     Call_dlopen (framework_path exe_path);
                     Call_dlsym handle "Py_Main";
                     Call_Py_Main (Z.of_nat (length args)) args;
                     Call_dlclose handle ])
            end
        end
    end.
Proof.
  destruct (head args ≫= realpath w) as [exe_path|] eqn:Hexe.
  2: { unfold main. rewrite Hexe. reflexivity. }
  rewrite (main_resolved _ _ _ _ Hexe).
  unfold bind, dlopen, dlsym, dlerror, dlclose, call_Py_Main, fprintf_stderr,
    emit, ret.
  cbn.
  destruct (dlopen_result w (framework_path exe_path)) as [handle|]; cbn;
    [|reflexivity].
  destruct (dlsym_result w handle "Py_Main"); cbn; rewrite Pos.eqb_refl;
    reflexivity.
Qed.

(** X8. When [dlopen] fails, [main] writes the text of [dlerror] for that
    failure after ["Failed to load Python framework: "] and returns 1; it
    has set [PYTHONHOME], and it calls neither [dlsym] nor [dlclose]. *)
Theorem load_failure_exits (w : World) (args : list string)
    (env : gmap string string) (exe_path : string) :
  head args ≫= realpath w = Some exe_path ->
  dlopen_result w (framework_path exe_path) = None ->
  fst (main w args (initial env)) = 1%Z /\
  events (snd (main w args (initial env)))
  = [ Call_setenv "PYTHONHOME" (python_home (framework_path exe_path)) 1;
      Call_dlopen (framework_path exe_path);
      Stderr ("Failed to load Python framework: " +:+
              dlopen_error w (framework_path exe_path) +:+ LF) ] /\
  loaded (snd (main w args (initial env))) = [] /\
  count_dlclose (events (snd (main w args (initial env)))) = 0.
Proof.
  intros Hexe Hopen. rewrite main_runs, Hexe, Hopen. repeat split.
Qed.

Lemma load_failure_exits_witness :
  head ["python_stub"] ≫= realpath Scenario.installed_deep
  = Some Scenario.deeply_nested_stub /\
  dlopen_result Scenario.installed_deep
    (framework_path Scenario.deeply_nested_stub) = None /\
  fst (main Scenario.installed_deep ["python_stub"] (initial ∅)) = 1%Z.
Proof.
  assert (Hexe : head ["python_stub"] ≫= realpath Scenario.installed_deep
                 = Some Scenario.deeply_nested_stub) by (vm_compute; reflexivity).
  assert (Hopen : dlopen_result Scenario.installed_deep
                    (framework_path Scenario.deeply_nested_stub) = None)
    by (vm_compute; reflexivity).
  split; [exact Hexe|]. split; [exact Hopen|].
  exact (proj1 (load_failure_exits _ _ ∅ _ Hexe Hopen)).
Defined.



(** X10. [main] changes no variable of the environment but [PYTHONHOME]:
    when the executable path does not resolve the environment is as it was,
    and otherwise [PYTHONHOME] holds the parent of the library path, whatever
    it held before, and every other variable is as it was. *)
Theorem environment_frame (w : World) (args : list string)
    (env : gmap string string) :
  (head args ≫= realpath w = None ->
   environ (snd (main w args (initial env))) = env) /\
  (forall exe_path,
     head args ≫= realpath w = Some exe_path ->
     environ (snd (main w args (initial env))) !! "PYTHONHOME"
     = Some (python_home (framework_path exe_path))) /\
  (forall name,
     name <> "PYTHONHOME" ->
     environ (snd (main w args (initial env))) !! name = env !! name).
Proof.
  rewrite main_runs.
  destruct (head args ≫= realpath w) as [exe_path|]; cbn.
  2: { split; [reflexivity|]. split; [discriminate | reflexivity]. }
  destruct (dlopen_result w (framework_path exe_path)) as [handle|];
    [destruct (dlsym_result w handle "Py_Main")|]; cbn;
    (split; [discriminate|]; split;
     [ intros exe [= <-]; apply lookup_insert_eq
     | intros name Hname; now apply lookup_insert_ne ]).
Qed.

Lemma environment_frame_witness :
  head ["python_stub"] ≫= realpath (Scenario.installed true)
  = Some Scenario.resources_stub /\
  environ
    (snd (main (Scenario.installed true) ["python_stub"]
            (initial (<["PYTHONHOME" := "/usr"]> (<["HOME" := "/Users/mhm"]> ∅)))))
  !! "PYTHONHOME"
  = Some (python_home (framework_path Scenario.resources_stub)) /\
  environ
    (snd (main (Scenario.installed true) ["python_stub"]
            (initial (<["PYTHONHOME" := "/usr"]> (<["HOME" := "/Users/mhm"]> ∅)))))
  !! "HOME"
  = (<["PYTHONHOME" := "/usr"]> (<["HOME" := "/Users/mhm"]> ∅)
       : gmap string string) !! "HOME".
Proof.
  assert (Hexe : head ["python_stub"] ≫= realpath (Scenario.installed true)
                 = Some Scenario.resources_stub) by (vm_compute; reflexivity).
  assert (Hname : "HOME" <> "PYTHONHOME") by discriminate.
  split; [exact Hexe|]. split.
  - exact (proj1 (proj2 (environment_frame _ _ _)) _ Hexe).
  - exact (proj2 (proj2 (environment_frame _ _ _)) _ Hname).
Defined.

(** X11. The library path always fits its buffer of 1024 bytes with its
    terminator, the development path included. When it has a separator,
    [PYTHONHOME] is what stands before the last one, so that the library
    path is [PYTHONHOME], a separator and one component without separator;
    when it has none, [PYTHONHOME] is the library path itself. *)
Theorem python_home_is_parent (exe_path : string) :
  String.length (framework_path exe_path) < 1024 /\
  String.length (python_home (framework_path exe_path))
  <= String.length (framework_path exe_path) /\
  match strrchr (framework_path exe_path) "/" with
  | Some last_slash_py =>
      framework_path exe_path
      = python_home (framework_path exe_path) +:+ "/" +:+
        after (framework_path exe_path) last_slash_py /\
      strrchr (after (framework_path exe_path) last_slash_py) "/" = None
  | None => python_home (framework_path exe_path) = framework_path exe_path
  end.
Proof.
  destruct (framework_path_terminated exe_path) as [Hlen Hcopy].
  split; [exact Hlen|].
  unfold python_home. rewrite Hcopy.
  destruct (strrchr (framework_path exe_path) "/") as [i|] eqn:Hi.
  - split; [apply cut_at_length|]. now apply strrchr_split.
  - split; [lia | reflexivity].
Qed.



End ExecutableStubFacts.
